(** * Helix runner: model registry and model-instance session pipeline

    A shallow embedding of
    - [api/pkg/model] : [GetModel], [GetModels], [GetLowestMemoryRequirement];
    - [api/pkg/runner/model_instance.go] : [NewModelInstance],
      [assignSessionTask], [queueSession], [errorSession],
      [taskResponseHandler] and the [cmd.Wait] goroutine of [startProcess].

    Go pointers to sessions and responses are modelled by the values they
    point to ([nil] is [None]); a Go [error] is modelled by the string its
    [Error()] method returns ([nil] is [None]); [uint64] and [int64] values
    are only compared or stored here, never computed with, so they are
    carried as [N] and [Z]. *)

From stdpp Require Import base option list strings gmap fin_maps pretty.
From Stdlib Require Import NArith ZArith Lia.

Local Open Scope string_scope.
Local Open Scope list_scope.

(** ** package types *)

Definition error : Type := string.

Definition SessionMode : Type := string.
Definition SessionType : Type := string.
Definition ModelName : Type := string.
Definition OwnerType : Type := string.
Definition WorkerTaskResponseType : Type := string.

(* values as in frontend/src/types.ts *)
Definition SessionModeInference : SessionMode := "inference".
Definition SessionModeFinetune : SessionMode := "finetune".
Definition WorkerTaskResponseTypeStream : WorkerTaskResponseType := "stream".
Definition WorkerTaskResponseTypeProgress : WorkerTaskResponseType := "progress".
Definition WorkerTaskResponseTypeResult : WorkerTaskResponseType := "result".

Module Session.
Record t : Type := mk {
  ID : string;
  Name : string;
  ParentSession : string;
  Mode : SessionMode;
  Type_ : SessionType;
  ModelName : ModelName;
  LoraDir : string;
  Owner : string;
  OwnerType : OwnerType;
}.
End Session.

Module SessionFilterModel.
Record t : Type := mk {
  Mode : SessionMode;
  ModelName : ModelName;
  LoraDir : string;
}.
End SessionFilterModel.

Module SessionFilter.
Record t : Type := mk {
  Mode : SessionMode;
  Type_ : SessionType;
  ModelName : ModelName;
  LoraDir : string;
  Memory : N;
  Reject : list SessionFilterModel.t;
  Older : Z;
}.
End SessionFilter.

Module RunnerTask.
Record t : Type := mk {
  SessionID : string;
  Prompt : string;
  LoraDir : string;
  DatasetDir : string;
}.

Definition set_SessionID (v : string) (x : t) : t :=
  mk v (Prompt x) (LoraDir x) (DatasetDir x).
End RunnerTask.

Module RunnerTaskResponse.
Record t : Type := mk {
  Type_ : WorkerTaskResponseType;
  SessionID : string;
  InteractionID : string;
  Owner : string;
  Message : string;
  Progress : Z;
  Status : string;
  Files : list string;
  LoraDir : string;
  Error : string;
  Done : bool;
}.

Definition set_Owner (v : string) (x : t) : t :=
  mk (Type_ x) (SessionID x) (InteractionID x) v (Message x) (Progress x)
     (Status x) (Files x) (LoraDir x) (Error x) (Done x).
End RunnerTaskResponse.

(** ** package model *)

Module Model.
(* the methods of the [model.Model] interface the runner code below calls;
   an interface value is the record of its methods *)
Record t : Type := mk {
  GetMemoryRequirements : SessionMode -> N;
  GetTask : Session.t -> error + RunnerTask.t;
}.
End Model.

(** Constants of package [types] whose declarations are not in the sources at
    hand: the [lora_dir] sentinel and the names of the known models. *)
Class TypesConsts : Type := {
  LORA_DIR_NONE : string;
  Model_Axolotl_Mistral7b : ModelName;
  Model_Axolotl_SDXL : ModelName;
  Model_Ollama_Mistral7b : ModelName;
  Model_Ollama_Gemma7b : ModelName;
}.

(** The four implementations of [model.Model]; their method bodies are not in
    the sources at hand. *)
Class ModelImpls : Type := {
  Mistral7bInstruct01 : Model.t;
  CogSDXL : Model.t;
  OllamaMistral7bInstruct01 : Model.t;
  OllamaGemma7bInstruct01 : Model.t;
}.

Section ModelRegistry.
Context `{TypesConsts} `{ModelImpls}.

(* a Go [switch] takes the first matching case *)
Definition GetModel (modelName : ModelName) : error + Model.t :=
  if decide (modelName = Model_Axolotl_Mistral7b) then inr Mistral7bInstruct01
  else if decide (modelName = Model_Axolotl_SDXL) then inr CogSDXL
  else if decide (modelName = Model_Ollama_Mistral7b) then inr OllamaMistral7bInstruct01
  else if decide (modelName = Model_Ollama_Gemma7b) then inr OllamaGemma7bInstruct01
  else inl ("no model for model name " +:+ modelName).

Definition GetModels : gmap ModelName Model.t * option error :=
  let models : gmap ModelName Model.t := ∅ in
  let models := <[Model_Axolotl_Mistral7b := Mistral7bInstruct01]> models in
  let models := <[Model_Axolotl_SDXL := CogSDXL]> models in
  let models := <[Model_Ollama_Mistral7b := OllamaMistral7bInstruct01]> models in
  let models := <[Model_Ollama_Gemma7b := OllamaGemma7bInstruct01]> models in
  (models, None).

(* one iteration of the [for _, model := range models] loop *)
Definition lowest_step (lowestMemoryRequirement : N) (model : Model.t) : N :=
  let finetune := Model.GetMemoryRequirements model SessionModeFinetune in
  let lowestMemoryRequirement :=
    if bool_decide (0 < finetune)%N
       && (bool_decide (lowestMemoryRequirement = 0%N)
           || bool_decide (finetune < lowestMemoryRequirement)%N)
    then finetune else lowestMemoryRequirement in
  let inference := Model.GetMemoryRequirements model SessionModeInference in
  let lowestMemoryRequirement :=
    if bool_decide (0 < inference)%N
       && (bool_decide (lowestMemoryRequirement = 0%N)
           || bool_decide (inference < lowestMemoryRequirement)%N)
    then inference else lowestMemoryRequirement in
  lowestMemoryRequirement.

(* Go ranges over a map in an unspecified order: [order] is the order in
   which this run of the loop visits the entries of the map *)
Definition GetLowestMemoryRequirement
    (order : list (ModelName * Model.t)) : N * option error :=
  match GetModels with
  | (_, Some err) => (0%N, Some err)
  | (models, None) =>
      let lowestMemoryRequirement := 0%N in
      (foldl lowest_step lowestMemoryRequirement (order.*2), None)
  end.

Definition range_order (order : list (ModelName * Model.t)) : Prop :=
  order ≡ₚ map_to_list (GetModels.1).

(* the two modes the loop asks every model about *)
Definition asked_mode (mode : SessionMode) : Prop :=
  mode = SessionModeFinetune \/ mode = SessionModeInference.

End ModelRegistry.

(** ** package runner: the model instance *)

Module RunnerOptions.
Record t : Type := mk {
  ID : string;
  ApiHost : string;
  ApiToken : string;
}.
End RunnerOptions.

Module ClientOptions.
Record t : Type := mk {
  Host : string;
  Token : string;
}.
End ClientOptions.

Module FileHandler.
(* the file handler is an object of the runner package whose methods talk
   to the filestore; it is carried as its data and the two methods the
   model instance calls *)
Record t : Type := mk {
  runnerID : string;
  httpClientOptions : ClientOptions.t;
  downloadSession : Session.t -> bool -> error + Session.t;
  uploadWorkerResponse : RunnerTaskResponse.t -> error + RunnerTaskResponse.t;
}.
End FileHandler.

Module Cmd.
Record t : Type := mk {
  Dir : string;
  Args : list string;
}.
End Cmd.

(* context.Context values are only stored and passed on *)
Inductive Context : Type :=
| Background
| WithCancel (parent : Context).

(** Modelled from the spec: [system.NewLimitedBuffer] is not in the sources at
    hand; the spec has the last ~10 KiB of stderr "retained in a bounded
    buffer", so a write keeps the last [limit] bytes of everything written. *)
Module LimitedBuffer.
Record t : Type := mk {
  limit : nat;
  contents : string;
}.

Definition Write (p : string) (b : t) : t :=
  let all := contents b +:+ p in
  mk (limit b) (String.substring (String.length all - limit b) (limit b) all).
End LimitedBuffer.

Definition NewLimitedBuffer (limit : nat) : LimitedBuffer.t :=
  LimitedBuffer.mk limit "".

Module ModelInstance.
Record t : Type := mk {
  id : string;
  model : Model.t;
  filter : SessionFilter.t;
  (* make(chan bool, 1): the values buffered in the channel *)
  finishChan : list bool;
  runnerOptions : RunnerOptions.t;
  httpClientOptions : ClientOptions.t;
  nextTaskURL : string;
  initialSessionURL : string;
  responseHandler : RunnerTaskResponse.t -> option error;
  ctx : Context;
  currentCommand : option Cmd.t;
  initialSession : option Session.t;
  currentSession : option Session.t;
  nextSession : option Session.t;
  queuedSession : option Session.t;
  lastActivityTimestamp : Z;
  fileHandler : FileHandler.t;
}.

Definition set_finishChan (v : list bool) (i : t) : t :=
  mk (id i) (model i) (filter i) v (runnerOptions i)
     (httpClientOptions i) (nextTaskURL i) (initialSessionURL i)
     (responseHandler i) (ctx i) (currentCommand i) (initialSession i)
     (currentSession i) (nextSession i) (queuedSession i)
     (lastActivityTimestamp i) (fileHandler i).

Definition set_currentSession (v : option Session.t) (i : t) : t :=
  mk (id i) (model i) (filter i) (finishChan i) (runnerOptions i)
     (httpClientOptions i) (nextTaskURL i) (initialSessionURL i)
     (responseHandler i) (ctx i) (currentCommand i) (initialSession i)
     v (nextSession i) (queuedSession i)
     (lastActivityTimestamp i) (fileHandler i).

Definition set_nextSession (v : option Session.t) (i : t) : t :=
  mk (id i) (model i) (filter i) (finishChan i) (runnerOptions i)
     (httpClientOptions i) (nextTaskURL i) (initialSessionURL i)
     (responseHandler i) (ctx i) (currentCommand i) (initialSession i)
     (currentSession i) v (queuedSession i)
     (lastActivityTimestamp i) (fileHandler i).

Definition set_queuedSession (v : option Session.t) (i : t) : t :=
  mk (id i) (model i) (filter i) (finishChan i) (runnerOptions i)
     (httpClientOptions i) (nextTaskURL i) (initialSessionURL i)
     (responseHandler i) (ctx i) (currentCommand i) (initialSession i)
     (currentSession i) (nextSession i) v
     (lastActivityTimestamp i) (fileHandler i).

Definition set_lastActivityTimestamp (v : Z) (i : t) : t :=
  mk (id i) (model i) (filter i) (finishChan i) (runnerOptions i)
     (httpClientOptions i) (nextTaskURL i) (initialSessionURL i)
     (responseHandler i) (ctx i) (currentCommand i) (initialSession i)
     (currentSession i) (nextSession i) (queuedSession i)
     v (fileHandler i).
End ModelInstance.

(** Everything a method of the instance does to the outside world, in the
    order it does it. *)
Inductive Level : Type := DebugLevel | InfoLevel | ErrorLevel.

Inductive Effect : Type :=
| Log (level : Level) (format : string) (args : list string)
| DownloadSession (session : Session.t) (isInitialSession : bool)
| UploadWorkerResponse (taskResponse : RunnerTaskResponse.t)
| ResponseHandler (res : RunnerTaskResponse.t)
| SendBlocked.

(** A method with receiver [instance *ModelInstance]: it reads and updates
    the instance and leaves a trace of effects. *)
Definition M (A : Type) : Type :=
  ModelInstance.t -> A * ModelInstance.t * list Effect.

Definition ret {A} (a : A) : M A := fun i => (a, i, []).

Definition bind {A B} (m : M A) (k : A -> M B) : M B :=
  fun i =>
    let '(a, i1, t1) := m i in
    let '(b, i2, t2) := k a i1 in
    (b, i2, t1 ++ t2).

Declare Scope go_scope.
Delimit Scope go_scope with go.
Notation "x <- m ;; k" := (bind m (fun x => k))
  (at level 100, m at next level, right associativity) : go_scope.
Notation "m ;; k" := (bind m (fun _ => k))
  (at level 100, right associativity) : go_scope.
Local Open Scope go_scope.

Definition this : M ModelInstance.t := fun i => (i, i, []).
Definition update (f : ModelInstance.t -> ModelInstance.t) : M unit :=
  fun i => (tt, f i, []).
Definition effect (e : Effect) : M unit := fun i => (tt, i, [e]).

Definition value {A} (m : M A) (i : ModelInstance.t) : A := (m i).1.1.
Definition exec {A} (m : M A) (i : ModelInstance.t) : ModelInstance.t := (m i).1.2.
Definition trace {A} (m : M A) (i : ModelInstance.t) : list Effect := (m i).2.

Definition log (level : Level) (format : string) (args : list string) : M unit :=
  effect (Log level format args).

(* instance.fileHandler.downloadSession(session, isInitialSession) *)
Definition call_downloadSession (session : Session.t) (isInitialSession : bool)
  : M (error + Session.t) :=
  instance <- this ;;
  effect (DownloadSession session isInitialSession) ;;
  ret (FileHandler.downloadSession (ModelInstance.fileHandler instance)
         session isInitialSession).

(* instance.fileHandler.uploadWorkerResponse(taskResponse) *)
Definition call_uploadWorkerResponse (taskResponse : RunnerTaskResponse.t)
  : M (error + RunnerTaskResponse.t) :=
  instance <- this ;;
  effect (UploadWorkerResponse taskResponse) ;;
  ret (FileHandler.uploadWorkerResponse (ModelInstance.fileHandler instance)
         taskResponse).

(* instance.responseHandler(res) *)
Definition call_responseHandler (res : RunnerTaskResponse.t) : M (option error) :=
  instance <- this ;;
  effect (ResponseHandler res) ;;
  ret (ModelInstance.responseHandler instance res).

(* instance.finishChan <- v, on a channel with a buffer of one: the send
   blocks while the buffer is full *)
Definition send_finishChan (v : bool) : M unit :=
  instance <- this ;;
  if decide (length (ModelInstance.finishChan instance) < 1)
  then update (ModelInstance.set_finishChan (ModelInstance.finishChan instance ++ [v]))
  else effect SendBlocked.

(** The responses handed to [responseHandler] during a run, in order. *)
Fixpoint handed (t : list Effect) : list RunnerTaskResponse.t :=
  match t with
  | [] => []
  | ResponseHandler res :: t' => res :: handed t'
  | _ :: t' => handed t'
  end.

(** [NewFileHandler] is declared in a file of the runner package that is not
    in the sources at hand. *)
Class RunnerDeps : Type := {
  NewFileHandler : string -> ClientOptions.t -> FileHandler.t;
}.

Section Constructor.
Context `{TypesConsts} `{ModelImpls} `{RunnerDeps}.

(* [id] is the value system.GenerateUUID() returns in this call *)
Definition NewModelInstance
    (ctx : Context)
    (id : string)
    (initialSession : Session.t)
    (nextTaskURL : string)
    (initialSessionURL : string)
    (responseHandler : RunnerTaskResponse.t -> option error)
    (runnerOptions : RunnerOptions.t) : error + ModelInstance.t :=
  match GetModel (Session.ModelName initialSession) with
  | inl err => inl err
  | inr modelInstance =>
      let useLoraDir := Session.LoraDir initialSession in
      let useLoraDir :=
        if decide (useLoraDir = "") then LORA_DIR_NONE else useLoraDir in
      let httpClientOptions :=
        ClientOptions.mk (RunnerOptions.ApiHost runnerOptions)
                         (RunnerOptions.ApiToken runnerOptions) in
      inr {|
        ModelInstance.id := id;
        ModelInstance.ctx := ctx;
        ModelInstance.finishChan := [];
        ModelInstance.model := modelInstance;
        ModelInstance.responseHandler := responseHandler;
        ModelInstance.nextTaskURL := nextTaskURL +:+ "/" +:+ id;
        ModelInstance.initialSessionURL := initialSessionURL +:+ "/" +:+ id;
        ModelInstance.initialSession := Some initialSession;
        ModelInstance.filter := {|
          SessionFilter.ModelName := Session.ModelName initialSession;
          SessionFilter.Mode := Session.Mode initialSession;
          SessionFilter.LoraDir := useLoraDir;
          SessionFilter.Type_ := Session.Type_ initialSession;
          SessionFilter.Memory := 0%N;
          SessionFilter.Reject := [];
          SessionFilter.Older := 0%Z;
        |};
        ModelInstance.runnerOptions := runnerOptions;
        ModelInstance.httpClientOptions := httpClientOptions;
        ModelInstance.fileHandler :=
          NewFileHandler (RunnerOptions.ID runnerOptions) httpClientOptions;
        (* fields the composite literal leaves at their zero value *)
        ModelInstance.currentCommand := None;
        ModelInstance.currentSession := None;
        ModelInstance.nextSession := None;
        ModelInstance.queuedSession := None;
        ModelInstance.lastActivityTimestamp := 0%Z;
      |}
  end.
End Constructor.

(** *** QUEUE *)

(* [now] is the value time.Now().Unix() returns in this call *)
Definition assignSessionTask (now : Z) (ctx : Context) (session : Session.t)
  : M (error + RunnerTask.t) :=
  update (ModelInstance.set_lastActivityTimestamp now) ;;
  update (ModelInstance.set_currentSession (Some session)) ;;
  instance <- this ;;
  match Model.GetTask (ModelInstance.model instance) session with
  | inl err => ret (inl err)
  | inr task => ret (inr (RunnerTask.set_SessionID (Session.ID session) task))
  end.

(** *** EVENT HANDLERS *)

Definition errorSession (session : Session.t) (err : error) : M unit :=
  apiUpdateErr <- call_responseHandler {|
    RunnerTaskResponse.Type_ := WorkerTaskResponseTypeResult;
    RunnerTaskResponse.SessionID := Session.ID session;
    RunnerTaskResponse.Error := err;
    (* fields the composite literal leaves at their zero value *)
    RunnerTaskResponse.InteractionID := "";
    RunnerTaskResponse.Owner := "";
    RunnerTaskResponse.Message := "";
    RunnerTaskResponse.Progress := 0%Z;
    RunnerTaskResponse.Status := "";
    RunnerTaskResponse.Files := [];
    RunnerTaskResponse.LoraDir := "";
    RunnerTaskResponse.Done := false;
  |} ;;
  match apiUpdateErr with
  | Some e => log ErrorLevel "Error reporting error to api: %v\n" [e]
  | None => ret tt
  end.

(** [queueSession] blocks in [downloadSession]; the instance is visible to
    the other goroutines meanwhile, so the method is written as the part
    before the call and the part after it. *)
Definition queueSession_store (session : Session.t) : M unit :=
  update (ModelInstance.set_queuedSession (Some session)) ;;
  update (ModelInstance.set_nextSession None) ;;
  log DebugLevel "🔵 runner prepare session: %s" [Session.ID session].

Definition queueSession_settle (session : Session.t)
    (downloaded : error + Session.t) : M unit :=
  match downloaded with
  | inl err =>
      log ErrorLevel "error preparing session: %s" [err] ;;
      update (ModelInstance.set_queuedSession None) ;;
      update (ModelInstance.set_nextSession None) ;;
      errorSession session err
  | inr preparedSession =>
      log DebugLevel "🔵 runner assign next session: %s" [Session.ID preparedSession] ;;
      update (ModelInstance.set_queuedSession None) ;;
      update (ModelInstance.set_nextSession (Some preparedSession))
  end.

Definition queueSession (session : Session.t) (isInitialSession : bool) : M unit :=
  queueSession_store session ;;
  downloaded <- call_downloadSession session isInitialSession ;;
  queueSession_settle session downloaded.

(** *** PROCESS MANAGEMENT *)

Definition taskResponseHandler (now : Z) (taskResponse : RunnerTaskResponse.t)
  : M unit :=
  instance <- this ;;
  match ModelInstance.currentSession instance with
  | None => log ErrorLevel "no current session" []
  | Some currentSession =>
      if decide (Session.ID currentSession <> RunnerTaskResponse.SessionID taskResponse)
      then log ErrorLevel "current session ID mis-match: current=%s vs event=%s"
             [Session.ID currentSession; RunnerTaskResponse.SessionID taskResponse]
      else
        let taskResponse :=
          RunnerTaskResponse.set_Owner (Session.Owner currentSession) taskResponse in
        update (ModelInstance.set_lastActivityTimestamp now) ;;
        (* [Some r]: go on with [r]; [None]: the method has returned *)
        continue <-
          (if decide (RunnerTaskResponse.Type_ taskResponse = WorkerTaskResponseTypeResult)
           then
             uploaded <- call_uploadWorkerResponse taskResponse ;;
             match uploaded with
             | inl err =>
                 log ErrorLevel "error uploading task result files: %s" [err] ;;
                 update (ModelInstance.set_currentSession None) ;;
                 ret None
             | inr taskResponse =>
                 update (ModelInstance.set_currentSession None) ;;
                 ret (Some taskResponse)
             end
           else ret (Some taskResponse)) ;;
        match continue with
        | None => ret tt
        | Some taskResponse =>
            err <- call_responseHandler taskResponse ;;
            match err with
            | Some e => log ErrorLevel "error writing event: %s" [e]
            | None => ret tt
            end
        end
  end.

(** What the child process does between [cmd.Start] and the return of
    [cmd.Wait]: the bytes it writes to stderr, and how it ends. *)
Module ChildRun.
Record t : Type := mk {
  stderr : string;
  waitErr : option error;
  exitCode : Z;
}.
End ChildRun.

(** The part of [startProcess] that runs once the child has ended: the copy of
    the child's stderr into [stderrBuf] has finished, and the goroutine that
    waits for the command goes on after [cmd.Wait]. *)
Definition startProcess_wait (child : ChildRun.t) : M unit :=
  let stderrBuf := NewLimitedBuffer (1024 * 10) in
  let stderrBuf := LimitedBuffer.Write (ChildRun.stderr child) stderrBuf in
  match ChildRun.waitErr child with
  | Some err =>
      log ErrorLevel "Command ended with an error: %v\n" [err] ;;
      instance <- this ;;
      match ModelInstance.currentSession instance with
      | Some currentSession => errorSession currentSession err
      | None => ret tt
      end
  | None => ret tt
  end ;;
  log InfoLevel "🟢 stop model instance, exit code=%d" [pretty (ChildRun.exitCode child)] ;;
  send_finishChan true.

(** ** The methods as steps

    One call of a method, run to its end: [queueSession] in its two parts,
    with whatever the download returned, [assignSessionTask] with any
    session, [taskResponseHandler], and the goroutine waiting for the child.
    This is for what holds of every call whatever came before it; the
    interleaving of the goroutines, assignment by assignment, is
    [world_step] below. *)
Inductive step : ModelInstance.t -> ModelInstance.t -> Prop :=
| step_queue_store i session :
    step i (exec (queueSession_store session) i)
| step_queue_settle i session downloaded :
    step i (exec (queueSession_settle session downloaded) i)
| step_assign i now ctx session :
    step i (exec (assignSessionTask now ctx session) i)
| step_response i now taskResponse :
    step i (exec (taskResponseHandler now taskResponse) i)
| step_wait i child :
    step i (exec (startProcess_wait child) i).



(** The terminal error envelope of the spec: a [result] with a non-empty
    [error] and [done] set. *)
Definition terminal_error (r : RunnerTaskResponse.t) : bool :=
  bool_decide (RunnerTaskResponse.Type_ r = WorkerTaskResponseTypeResult)
  && negb (bool_decide (RunnerTaskResponse.Error r = ""))
  && RunnerTaskResponse.Done r.

(** The response [errorSession] builds. *)
Definition error_response (session : Session.t) (err : error) : RunnerTaskResponse.t :=
  {| RunnerTaskResponse.Type_ := WorkerTaskResponseTypeResult;
     RunnerTaskResponse.SessionID := Session.ID session;
     RunnerTaskResponse.InteractionID := "";
     RunnerTaskResponse.Owner := "";
     RunnerTaskResponse.Message := "";
     RunnerTaskResponse.Progress := 0%Z;
     RunnerTaskResponse.Status := "";
     RunnerTaskResponse.Files := [];
     RunnerTaskResponse.LoraDir := "";
     RunnerTaskResponse.Error := err;
     RunnerTaskResponse.Done := false |}.

(** What is in [stderrBuf] when the child has ended. *)
Definition stderr_tail (child : ChildRun.t) : string :=
  LimitedBuffer.contents
    (LimitedBuffer.Write (ChildRun.stderr child) (NewLimitedBuffer (1024 * 10))).

Definition contains (needle hay : string) : Prop :=
  exists pre post, hay = pre +:+ needle +:+ post.

(** All fields but [currentSession] and [lastActivityTimestamp] agree. *)
Definition same_but_current_and_activity (i i' : ModelInstance.t) : Prop :=
  ModelInstance.id i' = ModelInstance.id i
  /\ ModelInstance.model i' = ModelInstance.model i
  /\ ModelInstance.filter i' = ModelInstance.filter i
  /\ ModelInstance.finishChan i' = ModelInstance.finishChan i
  /\ ModelInstance.runnerOptions i' = ModelInstance.runnerOptions i
  /\ ModelInstance.httpClientOptions i' = ModelInstance.httpClientOptions i
  /\ ModelInstance.nextTaskURL i' = ModelInstance.nextTaskURL i
  /\ ModelInstance.initialSessionURL i' = ModelInstance.initialSessionURL i
  /\ ModelInstance.responseHandler i' = ModelInstance.responseHandler i
  /\ ModelInstance.ctx i' = ModelInstance.ctx i
  /\ ModelInstance.currentCommand i' = ModelInstance.currentCommand i
  /\ ModelInstance.initialSession i' = ModelInstance.initialSession i
  /\ ModelInstance.nextSession i' = ModelInstance.nextSession i
  /\ ModelInstance.queuedSession i' = ModelInstance.queuedSession i
  /\ ModelInstance.fileHandler i' = ModelInstance.fileHandler i.

(** ** Sample values *)
Module Sample.
Definition consts : TypesConsts := {|
  LORA_DIR_NONE := "none";
  Model_Axolotl_Mistral7b := "mistralai/Mistral-7B-Instruct-v0.1";
  Model_Axolotl_SDXL := "stabilityai/stable-diffusion-xl-base-1.0";
  Model_Ollama_Mistral7b := "mistral:7b-instruct";
  Model_Ollama_Gemma7b := "gemma:7b-instruct";
|}.

Definition a_model (finetune inference : N) : Model.t := {|
  Model.GetMemoryRequirements mode :=
    if decide (mode = SessionModeFinetune) then finetune
    else if decide (mode = SessionModeInference) then inference
    else 0%N;
  Model.GetTask session :=
    inr (RunnerTask.mk "" "hello" (Session.LoraDir session) "");
|}.

Definition impls : ModelImpls := {|
  Mistral7bInstruct01 := a_model 24 12;
  CogSDXL := a_model 0 10;
  OllamaMistral7bInstruct01 := a_model 0 6;
  OllamaGemma7bInstruct01 := a_model 0 8;
|}.

(* a filestore that is up, and one that is down *)
Definition deps : RunnerDeps := {|
  NewFileHandler runnerID options :=
    FileHandler.mk runnerID options (fun s _ => inr s) (fun r => inr r);
|}.
Definition deps_down : RunnerDeps := {|
  NewFileHandler runnerID options :=
    FileHandler.mk runnerID options
      (fun _ _ => inl "filestore unreachable")
      (fun _ => inl "filestore unreachable");
|}.

Definition S1 : Session.t :=
  Session.mk "s1" "first" "" SessionModeInference "text"
    "mistralai/Mistral-7B-Instruct-v0.1" "" "alice" "user".
Definition S2 : Session.t :=
  Session.mk "s2" "second" "" SessionModeInference "text"
    "mistralai/Mistral-7B-Instruct-v0.1" "" "bob" "user".

Definition options : RunnerOptions.t := RunnerOptions.mk "runner-1" "api" "token".

(* the instance [NewModelInstance] returns for S1 *)
Definition fresh (d : RunnerDeps) : ModelInstance.t :=
  match @NewModelInstance consts impls d Background "uuid-1" S1
          "http://localhost:8080/api/v1/worker/task"
          "http://localhost:8080/api/v1/worker/initial_session"
          (fun _ => None) options with
  | inr instance => instance
  | inl _ =>
      ModelInstance.mk "" (a_model 0 0)
        (SessionFilter.mk "" "" "" "" 0%N [] 0%Z) [] options
        (ClientOptions.mk "" "") "" "" (fun _ => None) Background None None
        None None None 0%Z
        (FileHandler.mk "" (ClientOptions.mk "" "") (fun s _ => inr s) (fun r => inr r))
  end.

(* S1 running on the instance *)
Definition running (d : RunnerDeps) : ModelInstance.t :=
  exec (assignSessionTask 100 Background S1) (fresh d).

Definition stream_chunk : RunnerTaskResponse.t :=
  RunnerTaskResponse.mk WorkerTaskResponseTypeStream "s1" "i1" "" "tok" 0 "" [] "" "" false.
Definition final_result : RunnerTaskResponse.t :=
  RunnerTaskResponse.mk WorkerTaskResponseTypeResult "s1" "i1" "" "done" 0 "" ["out.png"] "" "" true.

Definition crash : ChildRun.t :=
  ChildRun.mk "Traceback: CUDA out of memory" (Some "exit status 1") 1.
End Sample.

(** ** Further parts of the model registry and of the model instance *)

(** The case constants of the [switch] in [GetModel] are pairwise different
    (Go rejects a switch with a repeated constant). *)
Definition known_names_distinct `{TypesConsts} : Prop :=
  NoDup [Model_Axolotl_Mistral7b; Model_Axolotl_SDXL;
         Model_Ollama_Mistral7b; Model_Ollama_Gemma7b].

(** The stdout parser calls [taskResponseHandler] for one response after the
    other; each call reads the clock anew. *)
Fixpoint taskResponses (rs : list (Z * RunnerTaskResponse.t)) : M unit :=
  match rs with
  | [] => ret tt
  | (now, taskResponse) :: rs' =>
      taskResponseHandler now taskResponse ;; taskResponses rs'
  end.

Module RunnerProcessConfig.
Record t : Type := mk {
  InstanceID : string;
  NextTaskURL : string;
  InitialSessionURL : string;
  MockRunner : bool;
  MockRunnerError : string;
  MockRunnerDelay : Z;
}.
End RunnerProcessConfig.

(** What one call of [startProcess] gets back from the model adapter and from
    the operating system: the command of [model.GetCommand] ([None] is a nil
    command), and the errors, if any, of the two pipes, of
    [model.GetTextStreams] and of [cmd.Start]; [Sprint] is how [%+v] prints
    the session. *)
Module Launch.
Record t : Type := mk {
  GetCommand : Context -> SessionFilter.t -> RunnerProcessConfig.t
               -> error + option Cmd.t;
  StdoutPipe : option error;
  StderrPipe : option error;
  GetTextStreams : SessionMode -> option error;
  Start : option error;
  Sprint : Session.t -> string;
}.
End Launch.

Definition set_currentCommand (v : option Cmd.t) (i : ModelInstance.t)
  : ModelInstance.t :=
  ModelInstance.mk (ModelInstance.id i) (ModelInstance.model i)
    (ModelInstance.filter i) (ModelInstance.finishChan i)
    (ModelInstance.runnerOptions i) (ModelInstance.httpClientOptions i)
    (ModelInstance.nextTaskURL i) (ModelInstance.initialSessionURL i)
    (ModelInstance.responseHandler i) (ModelInstance.ctx i) v
    (ModelInstance.initialSession i) (ModelInstance.currentSession i)
    (ModelInstance.nextSession i) (ModelInstance.queuedSession i)
    (ModelInstance.lastActivityTimestamp i) (ModelInstance.fileHandler i).

(** [startProcess] up to its return.  The goroutines it starts on the way
    (the two text streams, the two copies of the pipes, and the one that
    waits for the command, which is [startProcess_wait]) run on their own and
    are not part of the value it returns. *)
Definition startProcess (os : Launch.t) (session : Session.t) : M (option error) :=
  instance <- this ;;
  match Launch.GetCommand os (ModelInstance.ctx instance)
          (ModelInstance.filter instance)
          {| RunnerProcessConfig.InstanceID := ModelInstance.id instance;
             RunnerProcessConfig.NextTaskURL := ModelInstance.nextTaskURL instance;
             RunnerProcessConfig.InitialSessionURL :=
               ModelInstance.initialSessionURL instance;
             RunnerProcessConfig.MockRunner := false;
             RunnerProcessConfig.MockRunnerError := "";
             RunnerProcessConfig.MockRunnerDelay := 0%Z |} with
  | inl err => ret (Some err)
  | inr None => ret (Some "no command to run")
  | inr (Some cmd) =>
      log InfoLevel "🟢 run model instance: %s, %+v"
        [Cmd.Dir cmd; "[" +:+ String.concat " " (Cmd.Args cmd) +:+ "]"] ;;
      log InfoLevel "🟢 initial session: %s, %+v"
        [Session.ID session; Launch.Sprint os session] ;;
      update (set_currentCommand (Some cmd)) ;;
      match Launch.StdoutPipe os with
      | Some err => ret (Some err)
      | None =>
          match Launch.StderrPipe os with
          | Some err => ret (Some err)
          | None =>
              match Launch.GetTextStreams os (Session.Mode session) with
              | Some err => ret (Some err)
              | None =>
                  match Launch.Start os with
                  | Some err =>
                      log ErrorLevel "Failed to start command: %v\n" [err] ;;
                      ret (Some err)
                  | None => ret None
                  end
              end
          end
      end
  end.

(** The life of an instance: the steps of [step], a whole [queueSession], and
    calls of [startProcess]. *)
Inductive life_step : ModelInstance.t -> ModelInstance.t -> Prop :=
| life_step_op i i' :
    step i i' -> life_step i i'
| life_step_queue i session isInitialSession :
    life_step i (exec (queueSession session isInitialSession) i)
| life_step_start i os session :
    life_step i (exec (startProcess os session) i).

(** ** The instance among the goroutines that share it

    The struct has no lock, so every assignment to one of its three slots is
    a step of its own, and the goroutines interleave between any two of
    them.  (The other fields, [lastActivityTimestamp], [currentCommand] and
    [finishChan], are written inside these steps.)  A call of [queueSession]
    that has started and has not yet returned is known by the line it runs
    next. *)
Inductive QueueCall : Type :=
| Line166 (session : Session.t) (isInitialSession : bool)
| Line171 (session : Session.t) (isInitialSession : bool)
| Line176 (session : Session.t) (err : error)
| Line185 (preparedSession : Session.t).



(** An instance, the calls of [queueSession] in progress on it, and the
    sessions that a pop has taken out of [nextSession] and not yet given to
    [assignSessionTask]. *)
Module World.
Record t : Type := mk {
  instance : ModelInstance.t;
  queueing : list QueueCall;
  popping : list Session.t;
}.
End World.










(** The fields [NewModelInstance] fills in from its arguments. *)
Definition same_config (i i' : ModelInstance.t) : Prop :=
  ModelInstance.id i' = ModelInstance.id i
  /\ ModelInstance.model i' = ModelInstance.model i
  /\ ModelInstance.filter i' = ModelInstance.filter i
  /\ ModelInstance.runnerOptions i' = ModelInstance.runnerOptions i
  /\ ModelInstance.httpClientOptions i' = ModelInstance.httpClientOptions i
  /\ ModelInstance.nextTaskURL i' = ModelInstance.nextTaskURL i
  /\ ModelInstance.initialSessionURL i' = ModelInstance.initialSessionURL i
  /\ ModelInstance.responseHandler i' = ModelInstance.responseHandler i
  /\ ModelInstance.ctx i' = ModelInstance.ctx i
  /\ ModelInstance.initialSession i' = ModelInstance.initialSession i
  /\ ModelInstance.fileHandler i' = ModelInstance.fileHandler i.

(** The configuration [startProcess] hands to [model.GetCommand]. *)
Definition process_config (instance : ModelInstance.t) : RunnerProcessConfig.t :=
  {| RunnerProcessConfig.InstanceID := ModelInstance.id instance;
     RunnerProcessConfig.NextTaskURL := ModelInstance.nextTaskURL instance;
     RunnerProcessConfig.InitialSessionURL := ModelInstance.initialSessionURL instance;
     RunnerProcessConfig.MockRunner := false;
     RunnerProcessConfig.MockRunnerError := "";
     RunnerProcessConfig.MockRunnerDelay := 0%Z |}.

(** More sample values. *)
Module Probe.
Definition python : Cmd.t := Cmd.mk "/workspace/axolotl" ["python"; "-u"; "runner.py"].

(* a launch where everything works, and one where [cmd.Start] fails *)
Definition launch (start : option error) : Launch.t :=
  Launch.mk (fun _ _ _ => inr (Some python)) None None (fun _ => None) start
    (fun session => Session.ID session).

Definition clean_exit : ChildRun.t := ChildRun.mk "" None 0.
End Probe.

(** ** package server: the tools API *)

Definition ToolType : Type := string.
Definition ToolTypeAPI : ToolType := "api".
Definition ToolTypeFunction : ToolType := "function".

Module ToolApiAction.
Record t : Type := mk {
  Name : string;
  Description : string;
  Method : string;
  Path : string;
}.
End ToolApiAction.

Module ToolApiConfig.
Record t : Type := mk {
  URL : string;
  Schema : string;
  Actions : list ToolApiAction.t;
  Headers : gmap string string;
  Query : gmap string string;
}.

Definition set_Schema (v : string) (x : t) : t :=
  mk (URL x) v (Actions x) (Headers x) (Query x).
Definition set_Actions (v : list ToolApiAction.t) (x : t) : t :=
  mk (URL x) (Schema x) v (Headers x) (Query x).
End ToolApiConfig.

Module ToolConfig.
Record t : Type := mk {
  API : option ToolApiConfig.t;
}.
End ToolConfig.

Module Tool.
(* [Created] and [Updated] are times; they are only carried along *)
Record t : Type := mk {
  ID : string;
  Created : Z;
  Updated : Z;
  Owner : string;
  OwnerType : OwnerType;
  Name : string;
  Description : string;
  ToolType : ToolType;
  Config : ToolConfig.t;
}.

Definition set_ID (v : string) (x : t) : t :=
  mk v (Created x) (Updated x) (Owner x) (OwnerType x) (Name x)
     (Description x) (ToolType x) (Config x).
Definition set_Owner (v : string) (x : t) : t :=
  mk (ID x) (Created x) (Updated x) v (OwnerType x) (Name x)
     (Description x) (ToolType x) (Config x).
Definition set_OwnerType (v : string) (x : t) : t :=
  mk (ID x) (Created x) (Updated x) (Owner x) v (Name x)
     (Description x) (ToolType x) (Config x).
Definition set_API (v : ToolApiConfig.t) (x : t) : t :=
  mk (ID x) (Created x) (Updated x) (Owner x) (OwnerType x) (Name x)
     (Description x) (ToolType x) (ToolConfig.mk (Some v)).
End Tool.

Module OwnerContext.
Record t : Type := mk {
  Owner : string;
  OwnerType : OwnerType;
}.
End OwnerContext.

Module ListToolsQuery.
Record t : Type := mk {
  Owner : string;
  OwnerType : OwnerType;
}.
End ListToolsQuery.

(** Package [system]'s HTTP errors are declared in files that are not in the
    sources at hand: the type, its three constructors (a format and its
    arguments) and its [Error] method are parameters. *)
Class SystemPkg : Type := {
  HTTPError : Type;
  NewHTTPError400 : string -> list string -> HTTPError;
  NewHTTPError404 : string -> list string -> HTTPError;
  NewHTTPError500 : string -> list string -> HTTPError;
  HTTPError_Error : HTTPError -> string;
}.

(** An error of the store is [store.ErrNotFound] (or wraps it), or it is
    another error. *)
Inductive StoreError : Type :=
| ErrNotFound
| ErrOther (msg : string).

(** What the handlers of the tools API call: the store, the schema parser of
    package [tools], the planner and base64 decoding.  The planner is given a
    pointer to the tool: [ValidateAndDefault] answers with the tool as it has
    left it and with its error. *)
Module Backend.
Record t : Type := mk {
  ListTools : ListToolsQuery.t -> error + list Tool.t;
  CreateTool : Tool.t -> error + Tool.t;
  GetTool : string -> StoreError + Tool.t;
  UpdateTool : Tool.t -> error + Tool.t;
  DeleteTool : string -> option error;
  GetActionsFromSchema : string -> error + list ToolApiAction.t;
  ValidateAndDefault : Tool.t -> Tool.t * option error;
  DecodeString : string -> option string;
  (* store.ErrNotFound.Error() *)
  ErrNotFound_Error : string;
}.
End Backend.

Inductive Call : Type :=
| CallListTools (query : ListToolsQuery.t)
| CallCreateTool (tool : Tool.t)
| CallGetTool (id : string)
| CallUpdateTool (tool : Tool.t)
| CallDeleteTool (id : string)
| CallGetActionsFromSchema (schema : string)
| CallValidateAndDefault (tool : Tool.t).

(** A handler: its result and the calls it made, in order. *)
Definition Handler (A : Type) : Type := A * list Call.

Definition hret {A} (a : A) : Handler A := (a, []).
Definition hbind {A B} (m : Handler A) (k : A -> Handler B) : Handler B :=
  let '(a, t1) := m in
  let '(b, t2) := k a in
  (b, t1 ++ t2).
Definition called {A} (c : Call) (a : A) : Handler A := (a, [c]).

Declare Scope handler_scope.
Delimit Scope handler_scope with handler.
Notation "x <- m ;; k" := (hbind m (fun x => k))
  (at level 100, m at next level, right associativity) : handler_scope.

(** The parts of an HTTP request a handler reads: the JSON decoding of its
    body, the request context and the [id] of its path. *)
Module Request.
Record t : Type := mk {
  Body : error + Tool.t;
  userContext : OwnerContext.t;
  ID : string;
}.

Definition set_Body (v : error + Tool.t) (x : t) : t :=
  mk v (userContext x) (ID x).
End Request.

Definition StoreError_Error (b : Backend.t) (err : StoreError) : string :=
  match err with
  | ErrNotFound => Backend.ErrNotFound_Error b
  | ErrOther msg => msg
  end.

Section ToolsAPI.
Context `{SystemPkg}.
Local Open Scope handler_scope.

(* [validateTool] writes through its pointer: the tool as the call leaves
   it is returned beside the error *)
Definition validateTool (s : Backend.t) (tool : Tool.t)
  : Handler (Tool.t * option HTTPError) :=
  if decide (Tool.ToolType tool = ToolTypeAPI) then
    match ToolConfig.API (Tool.Config tool) with
    | None =>
        hret (tool, Some (NewHTTPError400 "API config is required for API tools" []))
    | Some api =>
        if decide (ToolApiConfig.URL api = "") then
          hret (tool, Some (NewHTTPError400 "API URL is required for API tools" []))
        else if decide (ToolApiConfig.Schema api = "") then
          hret (tool, Some (NewHTTPError400 "API schema is required for API tools" []))
        else
          let api :=
            match Backend.DecodeString s (ToolApiConfig.Schema api) with
            | Some decoded => ToolApiConfig.set_Schema decoded api
            | None => api
            end in
          let tool := Tool.set_API api tool in
          actions <- called (CallGetActionsFromSchema (ToolApiConfig.Schema api))
                       (Backend.GetActionsFromSchema s (ToolApiConfig.Schema api)) ;;
          match actions with
          | inl err =>
              hret (tool, Some (NewHTTPError400
                                  "failed to get actions from schema, error: %s" [err]))
          | inr actions =>
              if decide (length actions = 0) then
                hret (tool, Some (NewHTTPError400
                  "no actions found in the schema, please check the documentation for required fields (operationId, summary or description)" []))
              else
                let tool := Tool.set_API (ToolApiConfig.set_Actions actions api) tool in
                checked <- called (CallValidateAndDefault tool)
                             (Backend.ValidateAndDefault s tool) ;;
                match checked.2 with
                | Some err =>
                    hret (checked.1,
                          Some (NewHTTPError400
                                  "failed to validate and default tool, error: %s" [err]))
                | None => hret (checked.1, None)
                end
          end
    end
  else
    hret (tool, Some (NewHTTPError400
                        "invalid tool type %s, only API tools are supported at the moment"
                        [Tool.ToolType tool])).

Definition listTools (s : Backend.t) (r : Request.t) : Handler (HTTPError + list Tool.t) :=
  let userContext := Request.userContext r in
  let query := ListToolsQuery.mk (OwnerContext.Owner userContext)
                 (OwnerContext.OwnerType userContext) in
  tools <- called (CallListTools query) (Backend.ListTools s query) ;;
  match tools with
  | inl err => hret (inl (NewHTTPError500 err []))
  | inr tools => hret (inr tools)
  end.

Definition createTool (s : Backend.t) (r : Request.t) : Handler (HTTPError + Tool.t) :=
  match Request.Body r with
  | inl err =>
      hret (inl (NewHTTPError400 "failed to decode request body, error: %s" [err]))
  | inr tool =>
      let userContext := Request.userContext r in
      let query := ListToolsQuery.mk (OwnerContext.Owner userContext)
                     (OwnerContext.OwnerType userContext) in
      existingTools <- called (CallListTools query) (Backend.ListTools s query) ;;
      match existingTools with
      | inl err => hret (inl (NewHTTPError500 err []))
      | inr existingTools =>
          let tool := Tool.set_Owner (OwnerContext.Owner userContext) tool in
          let tool := Tool.set_OwnerType (OwnerContext.OwnerType userContext) tool in
          validated <- validateTool s tool ;;
          let tool := validated.1 in
          match validated.2 with
          | Some err => hret (inl (NewHTTPError400 (HTTPError_Error err) []))
          | None =>
              (* the first existing tool with the same name ends the loop *)
              match List.find (fun t => bool_decide (Tool.Name t = Tool.Name tool))
                      existingTools with
              | Some t =>
                  hret (inl (NewHTTPError400 "tool (%s) with name %s already exists"
                               [Tool.ID t; Tool.Name tool]))
              | None =>
                  created <- called (CallCreateTool tool) (Backend.CreateTool s tool) ;;
                  match created with
                  | inl err => hret (inl (NewHTTPError500 err []))
                  | inr created => hret (inr created)
                  end
              end
          end
      end
  end.

Definition updateTool (s : Backend.t) (r : Request.t) : Handler (HTTPError + Tool.t) :=
  let userContext := Request.userContext r in
  match Request.Body r with
  | inl err =>
      hret (inl (NewHTTPError400 "failed to decode request body, error: %s" [err]))
  | inr tool =>
      let id := Request.ID r in
      let tool := Tool.set_ID id tool in
      validated <- validateTool s tool ;;
      let tool := validated.1 in
      match validated.2 with
      | Some err => hret (inl (NewHTTPError400 (HTTPError_Error err) []))
      | None =>
          existing <- called (CallGetTool id) (Backend.GetTool s id) ;;
          match existing with
          | inl ErrNotFound =>
              hret (inl (NewHTTPError404 (Backend.ErrNotFound_Error s) []))
          | inl err => hret (inl (NewHTTPError500 (StoreError_Error s err) []))
          | inr existing =>
              if decide (Tool.Owner existing <> OwnerContext.Owner userContext) then
                hret (inl (NewHTTPError404 (Backend.ErrNotFound_Error s) []))
              else
                let tool := Tool.set_Owner (Tool.Owner existing) tool in
                let tool := Tool.set_OwnerType (Tool.OwnerType existing) tool in
                updated <- called (CallUpdateTool tool) (Backend.UpdateTool s tool) ;;
                match updated with
                | inl err => hret (inl (NewHTTPError500 err []))
                | inr updated => hret (inr updated)
                end
          end
      end
  end.

Definition deleteTool (s : Backend.t) (r : Request.t) : Handler (HTTPError + Tool.t) :=
  let userContext := Request.userContext r in
  let id := Request.ID r in
  existing <- called (CallGetTool id) (Backend.GetTool s id) ;;
  match existing with
  | inl ErrNotFound =>
      hret (inl (NewHTTPError404 (Backend.ErrNotFound_Error s) []))
  | inl err => hret (inl (NewHTTPError500 (StoreError_Error s err) []))
  | inr existing =>
      if decide (Tool.Owner existing <> OwnerContext.Owner userContext) then
        hret (inl (NewHTTPError404 (Backend.ErrNotFound_Error s) []))
      else
        err <- called (CallDeleteTool id) (Backend.DeleteTool s id) ;;
        match err with
        | Some err => hret (inl (NewHTTPError500 err []))
        | None => hret (inr existing)
        end
  end.
End ToolsAPI.

(** The store is written to: a tool is created, updated or deleted. *)
Definition writes_store (c : Call) : bool :=
  match c with
  | CallCreateTool _ | CallUpdateTool _ | CallDeleteTool _ => true
  | _ => false
  end.

(** Sample values for the tools API. *)
Module ToolsProbe.
Definition sys : SystemPkg := {|
  HTTPError := Z * string * list string;
  NewHTTPError400 format args := (400%Z, format, args);
  NewHTTPError404 format args := (404%Z, format, args);
  NewHTTPError500 format args := (500%Z, format, args);
  HTTPError_Error e := e.1.2;
|}.

Definition forecast : ToolApiAction.t :=
  ToolApiAction.mk "getForecast" "weather forecast" "GET" "/forecast".
Definition api : ToolApiConfig.t :=
  ToolApiConfig.mk "https://api.example.com" "openapi: 3.0.0" [] ∅ ∅.

(* a request body that names another owner *)
Definition weather : Tool.t :=
  Tool.mk "" 0 0 "mallory" "org" "weather" "forecasts" ToolTypeAPI
    (ToolConfig.mk (Some api)).
(* the tool the store holds under "tool-1" *)
Definition stored : Tool.t :=
  Tool.mk "tool-1" 0 0 "alice" "user" "weather" "forecasts" ToolTypeAPI
    (ToolConfig.mk (Some api)).

Definition backend (existing : list Tool.t) : Backend.t := {|
  Backend.ListTools _ := inr existing;
  Backend.CreateTool t := inr (Tool.set_ID "tool-2" t);
  Backend.GetTool id :=
    if decide (id = "tool-1") then inr stored else inl ErrNotFound;
  Backend.UpdateTool t := inr t;
  Backend.DeleteTool _ := None;
  Backend.GetActionsFromSchema _ := inr [forecast];
  Backend.ValidateAndDefault t := (t, None);
  Backend.DecodeString _ := None;
  Backend.ErrNotFound_Error := "not found";
|}.

Definition alice : OwnerContext.t := OwnerContext.mk "alice" "user".
Definition bob : OwnerContext.t := OwnerContext.mk "bob" "user".

Definition validated (owner : OwnerContext.t) (id : string) : Tool.t :=
  Tool.mk id 0 0 (OwnerContext.Owner owner) (OwnerContext.OwnerType owner)
    "weather" "forecasts" ToolTypeAPI
    (ToolConfig.mk (Some (ToolApiConfig.set_Actions [forecast] api))).
End ToolsProbe.

(** ** package server: the keycloak middleware *)

(** strings.Replace(s, old, new, 1): the first occurrence of [old] in [s],
    if there is one, is replaced by [new] (an empty [old] occurs at the very
    start). *)
Fixpoint strings_Replace_1 (s old new : string) : string :=
  if String.prefix old s
  then new +:+ String.substring (String.length old)
                 (String.length s - String.length old) s
  else match s with
       | EmptyString => EmptyString
       | String c s' => String c (strings_Replace_1 s' old new)
       end.

Module ServerOptions.
Record t : Type := mk {
  URL : string;
  Host : string;
  Port : Z;
  KeyCloakURL : string;
  KeyCloakToken : string;
}.
End ServerOptions.

Module LilysaasAPIServer.
Record t (Controller : Type) : Type := mk {
  Options : ServerOptions.t;
  Controller_ : Controller;
}.
Arguments mk {Controller}.
Arguments Options {Controller}.
Arguments Controller_ {Controller}.
End LilysaasAPIServer.

Definition NewServer {Controller : Type} (options : ServerOptions.t)
    (controller : Controller) : error + LilysaasAPIServer.t Controller :=
  if decide (ServerOptions.URL options = "") then inl "server url is required"
  else if decide (ServerOptions.Host options = "") then inl "server host is required"
  else if decide (ServerOptions.Port options = 0%Z) then inl "server port is required"
  else if decide (ServerOptions.KeyCloakURL options = "") then inl "keycloak url is required"
  else if decide (ServerOptions.KeyCloakToken options = "")
       then inl "keycloack token is required"
  else inr (LilysaasAPIServer.mk options controller).

Definition CLIENT_ID : string := "api".
Definition REALM : string := "lilypad".

Definition extractBearerToken (token : string) : string :=
  strings_Replace_1 token "Bearer " "".

(** A value of a claim. *)
Inductive ClaimValue : Type :=
| ClaimString (s : string)
| ClaimOther.

Module JWT.
(* [Claims] is [Some] of the map when it is a jwt.MapClaims *)
Record t : Type := mk {
  Raw : string;
  Claims : option (gmap string ClaimValue);
}.
End JWT.

(** The answers of the gocloak client; [Active] is a pointer to a bool. *)
Module Keycloak.
Record t : Type := mk {
  RetrospectToken : string -> string -> string -> string -> error + option bool;
  DecodeAccessToken : string -> string -> error + JWT.t;
}.
End Keycloak.

(** What a call of the middleware does, in order: what it prints, the
    requests it sends to keycloak, the answer it writes and the call of the
    next handler with the user ID put into the request's context. *)
Inductive AuthEvent : Type :=
| Printf (text : string)
| Dump (value : string)
| CallRetrospectToken (token clientID clientSecret realm : string)
| CallDecodeAccessToken (token realm : string)
| HttpError (message : string) (code : Z)
| NextServeHTTP (userid : string).

(** A Go call returns or panics. *)
Inductive Outcome (A : Type) : Type :=
| Returns (a : A)
| Panics (reason : string).
Arguments Returns {A}.
Arguments Panics {A}.

(* [authorization] is r.Header.Get("Authorization"): empty when the header
   is missing *)
Definition userFromRequest (kc : Keycloak.t) (options : ServerOptions.t)
    (authorization : string) : list AuthEvent * Outcome (error + JWT.t) :=
  let token := authorization in
  if decide (token = "") then ([], Returns (inl "authorization header missing"))
  else
    let token := extractBearerToken token in
    if decide (token = "") then ([], Returns (inl "bearer token missing"))
    else
      let printed :=
        [Printf "auth.options.KeyCloakToken --------------------------------------\n";
         Dump (ServerOptions.KeyCloakToken options);
         Printf "CLIENT_ID --------------------------------------\n";
         Dump CLIENT_ID;
         Printf "token --------------------------------------\n";
         Dump token;
         Printf "REALM --------------------------------------\n";
         Dump REALM;
         CallRetrospectToken token CLIENT_ID (ServerOptions.KeyCloakToken options) REALM] in
      match Keycloak.RetrospectToken kc token CLIENT_ID
              (ServerOptions.KeyCloakToken options) REALM with
      | inl err =>
          (printed,
           Returns (inl ("RetrospectToken: invalid or malformed token: " +:+ err)))
      | inr active =>
          let asked := printed ++ [CallDecodeAccessToken token REALM] in
          match Keycloak.DecodeAccessToken kc token REALM with
          | inl err =>
              (asked,
               Returns (inl ("DecodeAccessToken: invalid or malformed token: " +:+ err)))
          | inr j =>
              match active with
              | None => (asked, Panics "nil pointer dereference")
              | Some false => (asked, Returns (inl "invalid or expired token"))
              | Some true => (asked, Returns (inr j))
              end
          end
      end.

Definition getUserIdFromJWT (tok : JWT.t) : Outcome string :=
  match JWT.Claims tok with
  | None => Panics "interface conversion: Claims is not jwt.MapClaims"
  | Some mc =>
      match mc !! "sub" with
      | Some (ClaimString uid) => Returns uid
      | _ => Panics "interface conversion: interface {} is not string"
      end
  end.

(* the handler [verifyToken] wraps around [next], run on one request *)
Definition verifyToken (kc : Keycloak.t) (options : ServerOptions.t)
    (authorization : string) : list AuthEvent * Outcome unit :=
  match userFromRequest kc options authorization with
  | (events, Panics reason) => (events, Panics reason)
  | (events, Returns (inl err)) => (events ++ [HttpError err 401], Returns tt)
  | (events, Returns (inr token)) =>
      match getUserIdFromJWT token with
      | Panics reason => (events, Panics reason)
      | Returns userid => (events ++ [NextServeHTTP userid], Returns tt)
      end
  end.

(** ** frontend: hooks/useApi.ts *)

(* the object { Authorization: `Bearer ${token}` } *)
Definition getTokenHeaders (token : string) : gmap string string :=
  {[ "Authorization" := "Bearer " +:+ token ]}.

(* axios.defaults.headers.common after setToken(token): a string is falsy
   exactly when it is empty *)
Definition setToken (token : string) : gmap string string :=
  if decide (token = "") then ∅ else getTokenHeaders token.

(* Header.Get: the value of the header, empty when there is none *)
Definition Header_Get (headers : gmap string string) (key : string) : string :=
  default "" (headers !! key).

Definition is_next (e : AuthEvent) : bool :=
  match e with NextServeHTTP _ => true | _ => false end.
Definition is_keycloak_call (e : AuthEvent) : bool :=
  match e with
  | CallRetrospectToken _ _ _ _ | CallDecodeAccessToken _ _ => true
  | _ => false
  end.

(** Sample values for the middleware. *)
Module AuthProbe.
Definition options : ServerOptions.t :=
  ServerOptions.mk "https://lilysaas.example" "0.0.0.0" 80
    "https://keycloak.example" "client-secret".

Definition token : JWT.t :=
  JWT.mk "eyJhbGciOi" (Some {[ "sub" := ClaimString "user-42" ]}).

(* a keycloak that knows one token *)
Definition keycloak : Keycloak.t := {|
  Keycloak.RetrospectToken t _ _ _ :=
    if decide (t = "eyJhbGciOi") then inr (Some true) else inr (Some false);
  Keycloak.DecodeAccessToken t _ :=
    if decide (t = "eyJhbGciOi") then inr token else inl "token is malformed";
|}.
End AuthProbe.

(** ** package text: data preparation *)

(** [DataPrepTextSplitterChunk] is declared in a file that is not in the
    sources at hand; the code below reads and writes its [PromptName] field
    only, and [Others] stands for its other fields. *)
Module DataPrepTextSplitterChunk.
Record t (Others : Type) : Type := mk {
  PromptName : string;
  others : Others;
}.
Arguments mk {Others}.
Arguments PromptName {Others}.
Arguments others {Others}.

Definition set_PromptName {Others} (v : string) (x : t Others) : t Others :=
  mk v (others x).
End DataPrepTextSplitterChunk.

Module DynamicDataPrep.
Record t : Type := mk {
  Target : string;
  Prompts : list string;
}.
End DynamicDataPrep.

Definition NewDynamicDataPrep (target : string) (prompts : list string)
  : DynamicDataPrep.t :=
  if decide (target = "" /\ length prompts = 0) then
    (* use sensible defaults *)
    {| DynamicDataPrep.Target := "together-mixtral";
       DynamicDataPrep.Prompts :=
         ["summaries";
          "you-are-generating-fine-tuning-data";
          "simple-quiz";
          "entities-specific-to-broad";
          "important-facts";
          "entities-relationships";
          "origial-prompt"] |}
  else
    {| DynamicDataPrep.Target := target; DynamicDataPrep.Prompts := prompts |}.

(* the two nested loops, each iteration appending one copy to [result] *)
Definition ExpandChunks {Others} (d : DynamicDataPrep.t)
    (chunks : list (DataPrepTextSplitterChunk.t Others))
  : list (DataPrepTextSplitterChunk.t Others) * option error :=
  let result := [] in
  let result :=
    foldl (fun result prompt =>
             foldl (fun result chunk =>
                      let chunkCopy := chunk in
                      let chunkCopy :=
                        DataPrepTextSplitterChunk.set_PromptName prompt chunkCopy in
                      result ++ [chunkCopy])
                   result chunks)
          result (DynamicDataPrep.Prompts d) in
  (result, None).

Module DataPrepTextQuestionRaw.
Record t : Type := mk {
  Question : string;
  Answer : string;
}.
End DataPrepTextQuestionRaw.

Module DataPrepTextQuestionPart.
Record t : Type := mk {
  From : string;
  Value : string;
}.
End DataPrepTextQuestionPart.

Module DataPrepTextQuestion.
Record t : Type := mk {
  Conversations : list DataPrepTextQuestionPart.t;
}.
End DataPrepTextQuestion.

Module QText.
Record t : Type := mk {
  Name : string;
  Contents : string;
}.
End QText.

(** Package [qapairs] is not in the sources at hand: its prompts and targets
    are values of two types of its own, and its three functions answer as
    they do. *)
Module QAPairs.
Record t (Prompt Target : Type) : Type := mk {
  FindPrompt : string -> error + Prompt;
  FindTarget : string -> error + Target;
  Query : Target -> Prompt -> QText.t -> string -> string -> Z
          -> error + list DataPrepTextQuestionRaw.t;
}.
Arguments mk {Prompt Target}.
Arguments FindPrompt {Prompt Target}.
Arguments FindTarget {Prompt Target}.
Arguments Query {Prompt Target}.
End QAPairs.

Inductive QCall : Type :=
| CallFindPrompt (name : string)
| CallFindTarget (name : string)
| CallQuery (text : QText.t) (documentID documentGroupID : string) (n : Z).

Definition DynamicDataPrep_ConvertChunk {Prompt Target : Type}
    (qapairs : QAPairs.t Prompt Target) (d : DynamicDataPrep.t)
    (chunk : string) (index : Z) (documentID documentGroupID promptName : string)
  : (error + list DataPrepTextQuestion.t) * list QCall :=
  match QAPairs.FindPrompt qapairs promptName with
  | inl err => (inl err, [CallFindPrompt promptName])
  | inr prompt =>
      match QAPairs.FindTarget qapairs (DynamicDataPrep.Target d) with
      | inl err =>
          (inl err, [CallFindPrompt promptName;
                     CallFindTarget (DynamicDataPrep.Target d)])
      | inr target =>
          let text := {| QText.Name := "user-provided"; QText.Contents := chunk |} in
          let calls := [CallFindPrompt promptName;
                        CallFindTarget (DynamicDataPrep.Target d);
                        CallQuery text documentID documentGroupID 0] in
          match QAPairs.Query qapairs target prompt text documentID
                  documentGroupID 0 with
          | inl err => (inl err, calls)
          | inr resRaw =>
              let res := [] in
              let res :=
                foldl (fun res q =>
                         res ++ [{| DataPrepTextQuestion.Conversations :=
                                      [ {| DataPrepTextQuestionPart.From := "human";
                                           DataPrepTextQuestionPart.Value :=
                                             DataPrepTextQuestionRaw.Question q |};
                                        {| DataPrepTextQuestionPart.From := "gpt";
                                           DataPrepTextQuestionPart.Value :=
                                             DataPrepTextQuestionRaw.Answer q |} ] |}])
                      res resRaw in
              (inr res, calls)
          end
      end
  end.

(** The question and the answer a conversation was made from. *)
Definition conversation_pair (c : DataPrepTextQuestion.t)
  : option (string * string) :=
  match DataPrepTextQuestion.Conversations c with
  | [human; gpt] =>
      if bool_decide (DataPrepTextQuestionPart.From human = "human")
         && bool_decide (DataPrepTextQuestionPart.From gpt = "gpt")
      then Some (DataPrepTextQuestionPart.Value human,
                 DataPrepTextQuestionPart.Value gpt)
      else None
  | _ => None
  end.

(** *** dataprep/text/openai_gpt.go *)

(** The fields of [DataPrepTextOptions] the code below reads; the
    temperature is a float32 that is only passed on, kept as its bits. *)
Module DataPrepTextOptions.
Record t : Type := mk {
  APIKey : string;
  ChunkSize : Z;
  OverflowSize : Z;
  Temperature : N;
}.
End DataPrepTextOptions.

Module DataPrepTextConversation.
Record t : Type := mk {
  turns : list DataPrepTextQuestionPart.t;
}.
End DataPrepTextConversation.

Module ChatCompletionMessage.
Record t : Type := mk {
  Role : string;
  Content : string;
}.
End ChatCompletionMessage.

Module ChatCompletionRequest.
Record t : Type := mk {
  Model : string;
  Messages : list ChatCompletionMessage.t;
  Temperature : N;
}.
End ChatCompletionRequest.

Definition ChatMessageRoleSystem : string := "system".
Definition ChatMessageRoleUser : string := "user".

Module DataOpenAIGPT.
Record t : Type := mk {
  Options : DataPrepTextOptions.t;
  model : string;
  getSystemPromptFn : string -> DataPrepTextOptions.t -> string;
  getUserPromptFn : string -> DataPrepTextOptions.t -> string;
  parseResponseFn : string -> DataPrepTextOptions.t
                    -> error + list DataPrepTextConversation.t;
}.
End DataOpenAIGPT.

Module HTTPResponse.
Record t : Type := mk {
  StatusCode : Z;
  (* what io.ReadAll(resp.Body) returns *)
  Body : error + string;
}.
End HTTPResponse.

(** What one call of [ConvertChunk] gets from JSON, from package [system]
    and from the network: the serialised request, the URL, the request
    object (or the error of building it), the error of adding the
    authorisation headers, the answer of the server, the decoded answer (the
    message contents of its choices), and what [fmt.Errorf] makes of a format
    without arguments. *)
Module Wire.
Record t : Type := mk {
  Marshal : ChatCompletionRequest.t -> error + string;
  URL : ClientOptions.t -> string -> string;
  NewRequest : string -> string -> string -> option error;
  AddAuthHeadersRetryable : string -> option error;
  Do : string -> string -> string -> error + HTTPResponse.t;
  Unmarshal : string -> error + list string;
  Errorf : string -> error;
}.
End Wire.

(* the value the method returns; its two debug log lines are left out *)
Definition DataOpenAIGPT_ConvertChunk (wire : Wire.t) (gpt : DataOpenAIGPT.t)
    (chunk : string) : Outcome (error + list DataPrepTextConversation.t) :=
  let systemPrompt :=
    DataOpenAIGPT.getSystemPromptFn gpt chunk (DataOpenAIGPT.Options gpt) in
  let userPrompt :=
    DataOpenAIGPT.getUserPromptFn gpt chunk (DataOpenAIGPT.Options gpt) in
  let messages :=
    [ ChatCompletionMessage.mk ChatMessageRoleSystem systemPrompt;
      ChatCompletionMessage.mk ChatMessageRoleUser userPrompt ] in
  let clientOptions :=
    ClientOptions.mk "https://api.openai.com"
      (DataPrepTextOptions.APIKey (DataOpenAIGPT.Options gpt)) in
  let postData :=
    ChatCompletionRequest.mk (DataOpenAIGPT.model gpt) messages
      (DataPrepTextOptions.Temperature (DataOpenAIGPT.Options gpt)) in
  match Wire.Marshal wire postData with
  | inl err => Returns (inl ("error serializing JSON: " +:+ err))
  | inr dataBytes =>
      let url := Wire.URL wire clientOptions "/v1/chat/completions" in
      match Wire.NewRequest wire "POST" url dataBytes with
      | Some err => Returns (inl err)
      | None =>
          match Wire.AddAuthHeadersRetryable wire (ClientOptions.Token clientOptions) with
          | Some err => Returns (inl err)
          | None =>
              match Wire.Do wire "POST" url dataBytes with
              | inl err => Returns (inl err)
              | inr resp =>
                  match HTTPResponse.Body resp with
                  | inl err => Returns (inl err)
                  | inr body =>
                      if decide (400 <= HTTPResponse.StatusCode resp)%Z
                      then Returns (inl (Wire.Errorf wire body))
                      else
                        match Wire.Unmarshal wire body with
                        | inl err => Returns (inl ("error parsing JSON: " +:+ err))
                        | inr choices =>
                            match choices with
                            | [] => Panics "index out of range [0] with length 0"
                            | content :: _ =>
                                match DataOpenAIGPT.parseResponseFn gpt content
                                        (DataOpenAIGPT.Options gpt) with
                                | inl err => Returns (inl err)
                                | inr conversation => Returns (inr conversation)
                                end
                            end
                        end
                  end
              end
          end
      end
  end.

(** Sample values for data preparation. *)
Module PrepProbe.
Definition qapairs : QAPairs.t string string := {|
  QAPairs.FindPrompt name :=
    if decide (name = "simple-quiz") then inr "Write a quiz about:"
    else inl "prompt not found";
  QAPairs.FindTarget name :=
    if decide (name = "together-mixtral") then inr "https://api.together.xyz"
    else inl "target not found";
  QAPairs.Query _ _ text _ _ _ :=
    inr [DataPrepTextQuestionRaw.mk "What is it about?" (QText.Contents text);
         DataPrepTextQuestionRaw.mk "Who wrote it?" "nobody says"];
|}.

Definition gpt : DataOpenAIGPT.t := {|
  DataOpenAIGPT.Options := DataPrepTextOptions.mk "sk-key" 4096 256 0;
  DataOpenAIGPT.model := "gpt-4";
  DataOpenAIGPT.getSystemPromptFn _ _ := "You write questions.";
  DataOpenAIGPT.getUserPromptFn chunk _ := chunk;
  DataOpenAIGPT.parseResponseFn answer _ :=
    inr [DataPrepTextConversation.mk [DataPrepTextQuestionPart.mk "gpt" answer]];
|}.

(* a server that answers 200 with a body that decodes to [choices] *)
Definition wire (choices : list string) : Wire.t := {|
  Wire.Marshal _ := inr "{}";
  Wire.URL options path := ClientOptions.Host options +:+ path;
  Wire.NewRequest _ _ _ := None;
  Wire.AddAuthHeadersRetryable _ := None;
  Wire.Do _ _ _ := inr (HTTPResponse.mk 200 (inr "{}"));
  Wire.Unmarshal _ := inr choices;
  Wire.Errorf format := format;
|}.
End PrepProbe.

(** Unfold a method run on an instance down to its steps. *)
Ltac go :=
  unfold exec, trace, value, taskResponseHandler, queueSession,
    queueSession_store, queueSession_settle, errorSession, assignSessionTask,
    startProcess_wait, send_finishChan, call_responseHandler,
    call_uploadWorkerResponse, call_downloadSession, log, effect, update,
    this, bind, ret in *;
  cbn in *.

Ltac go_start := unfold startProcess in *; go.

(** Unfold a handler of the tools API down to its calls. *)
Ltac handler_go :=
  unfold createTool, updateTool, deleteTool, listTools, validateTool,
    hbind, hret, called in *;
  cbn in *.

(** * Properties *)

(** ** The model registry *)

Lemma lower_spec (a v : N) :
  let r := if bool_decide (0 < v)%N
              && (bool_decide (a = 0%N) || bool_decide (v < a)%N)
           then v else a in
  ((0 < a)%N -> (0 < r <= a)%N)
  /\ (r = a \/ (0 < r)%N /\ r = v)
  /\ ((0 < v)%N -> (0 < r <= v)%N).
Proof.
  repeat case_bool_decide; simpl; repeat split; intros; try lia;
    solve [ left; lia | right; lia ].
Qed.

Lemma lowest_step_spec (a : N) (m : Model.t) :
  ((0 < a)%N -> (0 < lowest_step a m <= a)%N)
  /\ (lowest_step a m = a
      \/ (0 < lowest_step a m)%N
         /\ exists mode, asked_mode mode
              /\ lowest_step a m = Model.GetMemoryRequirements m mode)
  /\ (forall mode, asked_mode mode ->
        (0 < Model.GetMemoryRequirements m mode)%N ->
        (0 < lowest_step a m <= Model.GetMemoryRequirements m mode)%N).
Proof.
  unfold lowest_step.
  set (ft := Model.GetMemoryRequirements m SessionModeFinetune).
  set (inf := Model.GetMemoryRequirements m SessionModeInference).
  pose proof (lower_spec a ft) as H1. cbv zeta in H1.
  match type of H1 with
  | context [if ?c then ft else a] => set (a1 := if c then ft else a) in *
  end.
  pose proof (lower_spec a1 inf) as H2. cbv zeta in H2.
  match type of H2 with
  | context [if ?c then inf else a1] => set (a2 := if c then inf else a1) in *
  end.
  destruct H1 as (Ha1 & Hr1 & Hv1), H2 as (Ha2 & Hr2 & Hv2).
  split; [|split].
  - intros Ha. specialize (Ha1 Ha). lia.
  - destruct Hr2 as [E2|[Hpos E2]].
    + destruct Hr1 as [E1|[Hpos E1]]; [left; by etrans|].
      right. split; [lia|]. exists SessionModeFinetune.
      split; [by left|by etrans].
    + right. split; [done|]. exists SessionModeInference. split; [by right|done].
  - intros mode [->| ->] Hpos; fold ft inf in Hpos |- *.
    + specialize (Hv1 Hpos).
      assert (0 < a1)%N as Ha1pos by lia. specialize (Ha2 Ha1pos). lia.
    + specialize (Hv2 Hpos). lia.
Qed.

Lemma lowest_fold_spec (ms : list Model.t) (a : N) :
  ((0 < a)%N -> (0 < foldl lowest_step a ms <= a)%N)
  /\ (foldl lowest_step a ms = a
      \/ (0 < foldl lowest_step a ms)%N
         /\ exists m mode, m ∈ ms /\ asked_mode mode
              /\ foldl lowest_step a ms = Model.GetMemoryRequirements m mode)
  /\ (forall m mode, m ∈ ms -> asked_mode mode ->
        (0 < Model.GetMemoryRequirements m mode)%N ->
        (0 < foldl lowest_step a ms <= Model.GetMemoryRequirements m mode)%N).
Proof.
  revert a. induction ms as [|m ms IH]; intros a; simpl.
  - split; [lia|]. split; [by left|]. intros m mode Hin. by apply elem_of_nil in Hin.
  - destruct (lowest_step_spec a m) as (Ha & Hr & Hv).
    destruct (IH (lowest_step a m)) as (IHa & IHr & IHv).
    split; [|split].
    + intros Hpos. specialize (Ha Hpos). lia.
    + destruct IHr as [E|(Hpos & m' & mode & Hin & Hmode & E)].
      * rewrite E. destruct Hr as [E'|(Hpos & mode & Hmode & E')]; [by left|].
        right. split; [done|]. exists m, mode. split; [by left|done].
      * right. split; [done|]. exists m', mode. split; [by right|done].
    + intros m' mode Hin Hmode Hpos. apply elem_of_cons in Hin as [->|Hin].
      * specialize (Hv mode Hmode Hpos).
        assert (0 < lowest_step a m)%N as Hstep by lia.
        specialize (IHa Hstep). lia.
      * by apply IHv.
Qed.

Section RegistryFacts.
Context `{TypesConsts} `{ModelImpls}.

Lemma range_order_models (order : list (ModelName * Model.t)) (m : Model.t) :
  range_order order ->
  m ∈ order.*2 <-> exists name, GetModels.1 !! name = Some m.
Proof.
  intros Hperm. rewrite list_elem_of_fmap. split.
  - intros ([name m'] & -> & Hin). exists name.
    apply elem_of_map_to_list. by rewrite <- Hperm.
  - intros (name & Hlook). exists (name, m). split; [done|].
    rewrite Hperm. by apply elem_of_map_to_list.
Qed.

(** C8. Whatever the order in which the loop visits the known models,
    [GetLowestMemoryRequirement] returns no error and a value that is below
    every strictly positive requirement of a known model in either mode; it
    is one of those requirements, or 0, and it is 0 exactly when no known
    model reports a positive requirement. *)
Theorem GetLowestMemoryRequirement_minimum
    (order : list (ModelName * Model.t)) :
  range_order order ->
  let lowest := (GetLowestMemoryRequirement order).1 in
  (GetLowestMemoryRequirement order).2 = None
  /\ (forall name model mode,
        GetModels.1 !! name = Some model -> asked_mode mode ->
        (0 < Model.GetMemoryRequirements model mode)%N ->
        (0 < lowest <= Model.GetMemoryRequirements model mode)%N)
  /\ (lowest = 0%N
      \/ (0 < lowest)%N
         /\ exists name model mode,
              GetModels.1 !! name = Some model /\ asked_mode mode
              /\ lowest = Model.GetMemoryRequirements model mode)
  /\ (lowest = 0%N <->
      forall name model mode,
        GetModels.1 !! name = Some model -> asked_mode mode ->
        Model.GetMemoryRequirements model mode = 0%N).
Proof.
  intros Horder. cbn zeta.
  assert ((GetLowestMemoryRequirement order).2 = None) as Herr by reflexivity.
  assert ((GetLowestMemoryRequirement order).1 = foldl lowest_step 0%N (order.*2))
    as -> by reflexivity.
  destruct (lowest_fold_spec (order.*2) 0%N) as (_ & Hr & Hv).
  assert (forall name model mode,
            GetModels.1 !! name = Some model -> asked_mode mode ->
            (0 < Model.GetMemoryRequirements model mode)%N ->
            (0 < foldl lowest_step 0%N (order.*2)
             <= Model.GetMemoryRequirements model mode)%N) as Hlow.
  { intros name model mode Hlook Hmode Hpos. apply Hv; [|done..].
    apply range_order_models; eauto. }
  assert (foldl lowest_step 0%N (order.*2) = 0%N
          \/ (0 < foldl lowest_step 0%N (order.*2))%N
             /\ exists name model mode,
                  GetModels.1 !! name = Some model /\ asked_mode mode
                  /\ foldl lowest_step 0%N (order.*2)
                     = Model.GetMemoryRequirements model mode) as Hone.
  { destruct Hr as [E|(Hpos & m & mode & Hin & Hmode & E)]; [by left|].
    right. split; [done|].
    apply range_order_models in Hin as (name & Hlook); [|done].
    by exists name, m, mode. }
  split; [done|]. split; [exact Hlow|]. split; [exact Hone|]. split.
  - intros Hzero name model mode Hlook Hmode.
    destruct (N.eq_0_gt_0_cases (Model.GetMemoryRequirements model mode))
      as [E|Hpos]; [done|].
    specialize (Hlow name model mode Hlook Hmode Hpos). lia.
  - intros Hall. destruct Hone as [E|(Hpos & name & model & mode & Hlook & Hmode & E)];
      [done|].
    specialize (Hall name model mode Hlook Hmode). lia.
Qed.
End RegistryFacts.

Lemma GetLowestMemoryRequirement_minimum_witness :
  let order := map_to_list ((@GetModels Sample.consts Sample.impls).1) in
  @range_order Sample.consts Sample.impls order
  /\ (@GetLowestMemoryRequirement Sample.consts Sample.impls order).1 = 6%N
  /\ (forall name model mode,
        (@GetModels Sample.consts Sample.impls).1 !! name = Some model ->
        asked_mode mode ->
        (0 < Model.GetMemoryRequirements model mode)%N ->
        (0 < (@GetLowestMemoryRequirement Sample.consts Sample.impls order).1
         <= Model.GetMemoryRequirements model mode)%N).
Proof.
  cbn zeta. split; [unfold range_order; reflexivity|].
  split; [vm_compute; reflexivity|].
  apply (@GetLowestMemoryRequirement_minimum Sample.consts Sample.impls
           (map_to_list ((@GetModels Sample.consts Sample.impls).1))).
  unfold range_order; reflexivity.
Defined.

(** ** The constructor *)

Section ConstructorFacts.
Context `{TypesConsts} `{ModelImpls} `{RunnerDeps}.

(** C7. For every initial session whose model is known, [NewModelInstance]
    returns an instance whose filter has the session's model name, mode and
    type, no memory bound, no reject list and no age bound; its [lora_dir]
    is [LORA_DIR_NONE] when the session's is empty and the session's own
    otherwise, so it is never empty.  For a session whose model is not
    known, [GetModel]'s error is returned and no instance is built. *)
Theorem NewModelInstance_filter
    (ctx : Context) (id : string) (initialSession : Session.t)
    (nextTaskURL initialSessionURL : string)
    (responseHandler : RunnerTaskResponse.t -> option error)
    (runnerOptions : RunnerOptions.t) :
  LORA_DIR_NONE <> "" ->
  match GetModel (Session.ModelName initialSession) with
  | inl err =>
      NewModelInstance ctx id initialSession nextTaskURL initialSessionURL
        responseHandler runnerOptions = inl err
  | inr model =>
      exists instance,
        NewModelInstance ctx id initialSession nextTaskURL initialSessionURL
          responseHandler runnerOptions = inr instance
        /\ ModelInstance.model instance = model
        /\ SessionFilter.ModelName (ModelInstance.filter instance)
           = Session.ModelName initialSession
        /\ SessionFilter.Mode (ModelInstance.filter instance)
           = Session.Mode initialSession
        /\ SessionFilter.Type_ (ModelInstance.filter instance)
           = Session.Type_ initialSession
        /\ (Session.LoraDir initialSession = "" ->
            SessionFilter.LoraDir (ModelInstance.filter instance) = LORA_DIR_NONE)
        /\ (Session.LoraDir initialSession <> "" ->
            SessionFilter.LoraDir (ModelInstance.filter instance)
            = Session.LoraDir initialSession)
        /\ SessionFilter.LoraDir (ModelInstance.filter instance) <> ""
        /\ SessionFilter.Memory (ModelInstance.filter instance) = 0%N
        /\ SessionFilter.Reject (ModelInstance.filter instance) = []
        /\ SessionFilter.Older (ModelInstance.filter instance) = 0%Z
  end.
Proof.
  intros Hsentinel. unfold NewModelInstance.
  destruct (GetModel (Session.ModelName initialSession)) as [err|model]; [done|].
  eexists. split; [reflexivity|]. simpl.
  repeat (split; [done|]).
  destruct (decide (Session.LoraDir initialSession = "")) as [E|E];
    repeat split; try done.
Qed.
End ConstructorFacts.

Lemma NewModelInstance_filter_witness :
  @LORA_DIR_NONE Sample.consts <> ""
  /\ exists instance,
       @NewModelInstance Sample.consts Sample.impls Sample.deps
         Background "uuid-1" Sample.S1 "task" "initial_session"
         (fun _ => None) Sample.options = inr instance
       /\ SessionFilter.LoraDir (ModelInstance.filter instance) = "none"
       /\ SessionFilter.Mode (ModelInstance.filter instance) = "inference".
Proof.
  assert (@LORA_DIR_NONE Sample.consts <> "") as Hsentinel by (simpl; congruence).
  split; [exact Hsentinel|].
  pose proof (@NewModelInstance_filter Sample.consts Sample.impls Sample.deps
                Background "uuid-1" Sample.S1 "task" "initial_session"
                (fun _ => None) Sample.options Hsentinel) as Hfilter.
  change (@GetModel Sample.consts Sample.impls (Session.ModelName Sample.S1))
    with (@inr error Model.t (Sample.a_model 24 12)) in Hfilter.
  destruct Hfilter as (instance & Hnew & _ & _ & Hmode & _ & Hnone & _).
  exists instance. split; [exact Hnew|]. split; [by apply Hnone|exact Hmode].
Defined.

(** ** The model instance *)


(** C4. For a [result] response that matches the current session, the first
    thing [taskResponseHandler] does to the outside world is the upload of
    the response (with the owner filled in); the response handler is called
    only after it, with what the upload returned, and not at all when the
    upload failed.  The current session is cleared either way. *)
Theorem result_uploaded_then_forwarded
    (instance : ModelInstance.t) (now : Z)
    (taskResponse : RunnerTaskResponse.t) (currentSession : Session.t) :
  ModelInstance.currentSession instance = Some currentSession ->
  Session.ID currentSession = RunnerTaskResponse.SessionID taskResponse ->
  RunnerTaskResponse.Type_ taskResponse = WorkerTaskResponseTypeResult ->
  let tagged :=
    RunnerTaskResponse.set_Owner (Session.Owner currentSession) taskResponse in
  exists rest,
    trace (taskResponseHandler now taskResponse) instance
    = UploadWorkerResponse tagged :: rest
    /\ RunnerTaskResponse.Files tagged = RunnerTaskResponse.Files taskResponse
    /\ ModelInstance.currentSession
         (exec (taskResponseHandler now taskResponse) instance) = None
    /\ match FileHandler.uploadWorkerResponse
               (ModelInstance.fileHandler instance) tagged with
       | inr uploaded => handed rest = [uploaded]
       | inl _ => handed rest = []
       end.
Proof.
  intros Hcur Hid Htype. go. rewrite Hcur. cbn.
  case_decide; [done|]. cbn. rewrite Htype. case_decide; [|done]. cbn.
  destruct (FileHandler.uploadWorkerResponse _ _) as [err|uploaded]; cbn.
  - eexists. split; [reflexivity|]. by cbn.
  - destruct (ModelInstance.responseHandler instance uploaded); cbn;
      (eexists; split; [reflexivity|]; by cbn).
Qed.

Lemma result_uploaded_then_forwarded_witness :
  ModelInstance.currentSession (Sample.running Sample.deps) = Some Sample.S1
  /\ exists rest,
       trace (taskResponseHandler 101 Sample.final_result)
         (Sample.running Sample.deps)
       = UploadWorkerResponse
           (RunnerTaskResponse.set_Owner "alice" Sample.final_result) :: rest
       /\ ModelInstance.currentSession
            (exec (taskResponseHandler 101 Sample.final_result)
               (Sample.running Sample.deps)) = None.
Proof.
  split; [reflexivity|].
  destruct (result_uploaded_then_forwarded (Sample.running Sample.deps) 101
              Sample.final_result Sample.S1)
    as (rest & Htrace & _ & Hcleared & _); [reflexivity..|].
  exists rest. split; [exact Htrace|exact Hcleared].
Defined.

(** C9. When the upload of a matching [result] response fails,
    [taskResponseHandler] clears the current session, logs the failure and
    returns: the response handler is not called, neither with the result nor
    with an error response. *)
Theorem result_upload_failure_forwards_nothing
    (instance : ModelInstance.t) (now : Z)
    (taskResponse : RunnerTaskResponse.t) (currentSession : Session.t)
    (err : error) :
  ModelInstance.currentSession instance = Some currentSession ->
  Session.ID currentSession = RunnerTaskResponse.SessionID taskResponse ->
  RunnerTaskResponse.Type_ taskResponse = WorkerTaskResponseTypeResult ->
  FileHandler.uploadWorkerResponse (ModelInstance.fileHandler instance)
    (RunnerTaskResponse.set_Owner (Session.Owner currentSession) taskResponse)
  = inl err ->
  ModelInstance.currentSession
    (exec (taskResponseHandler now taskResponse) instance) = None
  /\ handed (trace (taskResponseHandler now taskResponse) instance) = []
  /\ trace (taskResponseHandler now taskResponse) instance
     = [UploadWorkerResponse
          (RunnerTaskResponse.set_Owner (Session.Owner currentSession) taskResponse);
        Log ErrorLevel "error uploading task result files: %s" [err]].
Proof.
  intros Hcur Hid Htype Hupload. go. rewrite Hcur. cbn.
  case_decide; [done|]. cbn. rewrite Htype. case_decide; [|done]. cbn.
  rewrite Hupload. cbn. repeat split.
Qed.

Lemma result_upload_failure_forwards_nothing_witness :
  ModelInstance.currentSession (Sample.running Sample.deps_down) = Some Sample.S1
  /\ ModelInstance.currentSession
       (exec (taskResponseHandler 101 Sample.final_result)
          (Sample.running Sample.deps_down)) = None
  /\ handed (trace (taskResponseHandler 101 Sample.final_result)
               (Sample.running Sample.deps_down)) = [].
Proof.
  split; [reflexivity|].
  destruct (result_upload_failure_forwards_nothing
              (Sample.running Sample.deps_down) 101 Sample.final_result
              Sample.S1 "filestore unreachable")
    as (Hcleared & Hnone & _); [reflexivity..|].
  split; [exact Hcleared|exact Hnone].
Defined.

(** C2. A response that arrives when there is no current session, or whose
    session ID is not the current session's, is logged and dropped: the
    response handler is not called and the instance is left as it was.  A
    response for the current session has its owner set to the current
    session's owner before anything else is done with it (the upload for a
    [result], the response handler otherwise); as the upload keeps the
    session ID and the owner of the response it is given, every response
    handed to the response handler carries the current session's ID and
    owner. *)
Theorem taskResponseHandler_routing
    (instance : ModelInstance.t) (now : Z) (taskResponse : RunnerTaskResponse.t) :
  (forall r r',
      FileHandler.uploadWorkerResponse (ModelInstance.fileHandler instance) r = inr r' ->
      RunnerTaskResponse.SessionID r' = RunnerTaskResponse.SessionID r
      /\ RunnerTaskResponse.Owner r' = RunnerTaskResponse.Owner r) ->
  let t := trace (taskResponseHandler now taskResponse) instance in
  match ModelInstance.currentSession instance with
  | None =>
      t = [Log ErrorLevel "no current session" []]
      /\ handed t = []
      /\ exec (taskResponseHandler now taskResponse) instance = instance
  | Some currentSession =>
      if decide (Session.ID currentSession = RunnerTaskResponse.SessionID taskResponse)
      then
        let tagged :=
          RunnerTaskResponse.set_Owner (Session.Owner currentSession) taskResponse in
        RunnerTaskResponse.Owner tagged = Session.Owner currentSession
        /\ RunnerTaskResponse.SessionID tagged = Session.ID currentSession
        /\ (exists rest,
              t = (if decide (RunnerTaskResponse.Type_ taskResponse
                              = WorkerTaskResponseTypeResult)
                   then UploadWorkerResponse tagged
                   else ResponseHandler tagged) :: rest)
        /\ Forall (fun res =>
                     RunnerTaskResponse.SessionID res = Session.ID currentSession
                     /\ RunnerTaskResponse.Owner res = Session.Owner currentSession)
                  (handed t)
      else
        t = [Log ErrorLevel "current session ID mis-match: current=%s vs event=%s"
               [Session.ID currentSession; RunnerTaskResponse.SessionID taskResponse]]
        /\ handed t = []
        /\ exec (taskResponseHandler now taskResponse) instance = instance
  end.
Proof.
  intros Hupload. go.
  destruct (ModelInstance.currentSession instance) as [currentSession|]; cbn;
    [|done].
  destruct (decide (Session.ID currentSession
                    = RunnerTaskResponse.SessionID taskResponse)) as [Hid|Hid];
    (case_decide; [|done]) || (case_decide; [done|]); cbn; [|done].
  split; [done|]. split; [done|].
  destruct (decide (RunnerTaskResponse.Type_ taskResponse
                    = WorkerTaskResponseTypeResult)) as [Htype|Htype]; cbn.
  - destruct (FileHandler.uploadWorkerResponse _ _) as [err|uploaded] eqn:Hup; cbn.
    + split; [by eexists|]. constructor.
    + apply Hupload in Hup as [Hsid Hown]. cbn in Hsid, Hown.
      destruct (ModelInstance.responseHandler instance uploaded); cbn;
        (split; [by eexists|]); repeat constructor; congruence.
  - destruct (ModelInstance.responseHandler instance _); cbn;
      (split; [by eexists|]); repeat constructor; done.
Qed.

Lemma taskResponseHandler_routing_witness :
  (forall r r',
      FileHandler.uploadWorkerResponse
        (ModelInstance.fileHandler (Sample.running Sample.deps)) r = inr r' ->
      RunnerTaskResponse.SessionID r' = RunnerTaskResponse.SessionID r
      /\ RunnerTaskResponse.Owner r' = RunnerTaskResponse.Owner r)
  /\ Forall (fun res =>
               RunnerTaskResponse.SessionID res = "s1"
               /\ RunnerTaskResponse.Owner res = "alice")
       (handed (trace (taskResponseHandler 101 Sample.stream_chunk)
                  (Sample.running Sample.deps))).
Proof.
  assert (forall r r',
             FileHandler.uploadWorkerResponse
               (ModelInstance.fileHandler (Sample.running Sample.deps)) r = inr r' ->
             RunnerTaskResponse.SessionID r' = RunnerTaskResponse.SessionID r
             /\ RunnerTaskResponse.Owner r' = RunnerTaskResponse.Owner r) as Hupload.
  { intros r r' Heq. cbn in Heq. injection Heq as <-. split; reflexivity. }
  split; [exact Hupload|].
  pose proof (taskResponseHandler_routing (Sample.running Sample.deps) 101
                Sample.stream_chunk Hupload) as Hrouting.
  cbn in Hrouting. exact (proj2 (proj2 (proj2 Hrouting))).
Defined.

(** C10. [assignSessionTask] sets [lastActivityTimestamp] to the current time
    and [currentSession] to the session it is given; [taskResponseHandler],
    for a response of the current session, sets [lastActivityTimestamp] to
    the current time and clears [currentSession] when the response is a
    [result] (and leaves it otherwise).  Neither changes any other field of
    the instance. *)
Theorem activity_refreshed_frame
    (instance : ModelInstance.t) (now : Z) (ctx : Context) (session : Session.t)
    (taskResponse : RunnerTaskResponse.t) :
  let assigned := exec (assignSessionTask now ctx session) instance in
  let handled := exec (taskResponseHandler now taskResponse) instance in
  (ModelInstance.lastActivityTimestamp assigned = now
   /\ ModelInstance.currentSession assigned = Some session
   /\ same_but_current_and_activity instance assigned)
  /\ (forall currentSession,
        ModelInstance.currentSession instance = Some currentSession ->
        Session.ID currentSession = RunnerTaskResponse.SessionID taskResponse ->
        ModelInstance.lastActivityTimestamp handled = now
        /\ ModelInstance.currentSession handled
           = (if decide (RunnerTaskResponse.Type_ taskResponse
                         = WorkerTaskResponseTypeResult)
              then None else Some currentSession)
        /\ same_but_current_and_activity instance handled).
Proof.
  unfold same_but_current_and_activity. split.
  - go. destruct (Model.GetTask _ _); cbn; repeat split.
  - intros currentSession Hcur Hid. go. rewrite Hcur. cbn.
    case_decide; [done|]. cbn.
    destruct (decide (RunnerTaskResponse.Type_ taskResponse
                      = WorkerTaskResponseTypeResult)) as [Htype|Htype]; cbn.
    + destruct (FileHandler.uploadWorkerResponse _ _) as [err|uploaded]; cbn;
        [by repeat split|].
      destruct (ModelInstance.responseHandler instance uploaded); cbn;
        by repeat split.
    + destruct (ModelInstance.responseHandler instance _); cbn; by repeat split.
Qed.

Lemma activity_refreshed_frame_witness :
  ModelInstance.currentSession (Sample.running Sample.deps) = Some Sample.S1
  /\ Session.ID Sample.S1 = RunnerTaskResponse.SessionID Sample.stream_chunk
  /\ ModelInstance.lastActivityTimestamp
       (exec (taskResponseHandler 250 Sample.stream_chunk)
          (Sample.running Sample.deps)) = 250%Z
  /\ same_but_current_and_activity (Sample.running Sample.deps)
       (exec (taskResponseHandler 250 Sample.stream_chunk)
          (Sample.running Sample.deps)).
Proof.
  split; [reflexivity|]. split; [reflexivity|].
  destruct (activity_refreshed_frame (Sample.running Sample.deps) 250
              Background Sample.S2 Sample.stream_chunk) as [_ Hhandled].
  destruct (Hhandled Sample.S1) as (Hnow & _ & Hframe); [reflexivity..|].
  split; [exact Hnow|exact Hframe].
Defined.

Lemma String_length_app (s1 s2 : string) :
  String.length (s1 +:+ s2) = String.length s1 + String.length s2.
Proof. induction s1 as [|c s1 IH]; simpl; [done|]. by rewrite IH. Qed.

Lemma String_app_empty_r (s : string) : s +:+ "" = s.
Proof.
  induction s as [|c s IH]; [done|].
  change (String c (s +:+ "") = String c s). by rewrite IH.
Qed.

Lemma contains_refl (s : string) : contains s s.
Proof. exists "", "". cbn. symmetry. apply String_app_empty_r. Qed.

Lemma contains_length (needle hay : string) :
  contains needle hay -> String.length needle <= String.length hay.
Proof.
  intros (pre & post & ->). rewrite !String_length_app. lia.
Qed.

Lemma errorSession_run (instance : ModelInstance.t) (session : Session.t) (err : error) :
  exec (errorSession session err) instance = instance
  /\ handed (trace (errorSession session err) instance)
     = [error_response session err].
Proof.
  go. by destruct (ModelInstance.responseHandler instance _).
Qed.

(** C1, as stated, fails.  On an instance running session s1 whose child ends
    with "exit status 1", and on a fresh instance whose download of s2 fails,
    the one response handed to the response handler has [done] false, so it is
    not the terminal error envelope; and after the child's failure a stream
    response of s1 is still forwarded. *)
Lemma error_response_not_terminal :
  let instance := Sample.running Sample.deps in
  let crashed := exec (startProcess_wait Sample.crash) instance in
  (exists r,
      handed (trace (startProcess_wait Sample.crash) instance) = [r]
      /\ RunnerTaskResponse.Done r = false
      /\ terminal_error r = false)
  /\ (exists r,
        handed (trace (queueSession Sample.S2 false) (Sample.fresh Sample.deps_down))
        = [r]
        /\ RunnerTaskResponse.Done r = false
        /\ terminal_error r = false)
  /\ handed (trace (taskResponseHandler 101 Sample.stream_chunk) crashed)
     = [RunnerTaskResponse.set_Owner "alice" Sample.stream_chunk].
Proof.
  cbn zeta. split; [|split].
  - eexists. split; [reflexivity|]. split; reflexivity.
  - eexists. split; [reflexivity|]. split; reflexivity.
  - reflexivity.
Qed.

(** C1, amended.  [errorSession] hands the response handler exactly one
    response: a [result] with the session's ID and the error's message in
    [error] (non-empty when the message is), every other field at its zero
    value, so [done] is false; it changes no field of the instance.  That is
    the one response handed over when the download in [queueSession] fails,
    and when the child ends with an error while a session is current. *)
Theorem errorSession_single_result
    (instance : ModelInstance.t) (session : Session.t) (err : error) :
  err <> "" ->
  let r := error_response session err in
  handed (trace (errorSession session err) instance) = [r]
  /\ exec (errorSession session err) instance = instance
  /\ RunnerTaskResponse.Type_ r = WorkerTaskResponseTypeResult
  /\ RunnerTaskResponse.SessionID r = Session.ID session
  /\ RunnerTaskResponse.Error r = err
  /\ RunnerTaskResponse.Error r <> ""
  /\ RunnerTaskResponse.Done r = false
  /\ (forall isInitialSession,
        FileHandler.downloadSession (ModelInstance.fileHandler instance)
          session isInitialSession = inl err ->
        handed (trace (queueSession session isInitialSession) instance) = [r])
  /\ (forall child,
        ModelInstance.currentSession instance = Some session ->
        ChildRun.waitErr child = Some err ->
        handed (trace (startProcess_wait child) instance) = [r]
        /\ ModelInstance.currentSession (exec (startProcess_wait child) instance)
           = Some session).
Proof.
  intros Herr. cbn zeta.
  destruct (errorSession_run instance session err) as [Hexec Hhanded].
  repeat (split; [done|]). split.
  - intros isInitialSession Hdown. go. rewrite Hdown. cbn.
    by destruct (ModelInstance.responseHandler instance _).
  - intros child Hcur Hwait. go. rewrite Hwait. cbn. rewrite Hcur. cbn.
    destruct (ModelInstance.responseHandler instance _); cbn;
      case_decide; cbn; by rewrite ?Hcur.
Qed.

Lemma errorSession_single_result_witness :
  "exit status 1" <> ""
  /\ ModelInstance.currentSession (Sample.running Sample.deps) = Some Sample.S1
  /\ handed (trace (startProcess_wait Sample.crash) (Sample.running Sample.deps))
     = [error_response Sample.S1 "exit status 1"].
Proof.
  assert ("exit status 1" <> "") as Herr by congruence.
  split; [exact Herr|]. split; [reflexivity|].
  destruct (errorSession_single_result (Sample.running Sample.deps) Sample.S1
              "exit status 1" Herr) as (_ & _ & _ & _ & _ & _ & _ & _ & Hwait).
  destruct (Hwait Sample.crash) as [Hhanded _]; [reflexivity..|].
  exact Hhanded.
Defined.

(** C6, as stated, fails.  Session s1 is current and the child ends with
    "exit status 1" after writing a traceback to stderr: the buffer holds the
    traceback, but the one response handed to the response handler has [done]
    false and "exit status 1" as its [error], which does not include what the
    buffer holds. *)
Lemma child_failure_response_lacks_stderr :
  let instance := Sample.running Sample.deps in
  stderr_tail Sample.crash = "Traceback: CUDA out of memory"
  /\ exists r,
       handed (trace (startProcess_wait Sample.crash) instance) = [r]
       /\ RunnerTaskResponse.Done r = false
       /\ RunnerTaskResponse.Error r = "exit status 1"
       /\ ~ contains (stderr_tail Sample.crash) (RunnerTaskResponse.Error r).
Proof.
  cbn zeta. split; [vm_compute; reflexivity|].
  eexists. split; [reflexivity|]. split; [reflexivity|]. split; [reflexivity|].
  intros Hcontains. apply contains_length in Hcontains.
  vm_compute in Hcontains. lia.
Qed.

(** C6, amended.  When the child ends with an error while a session is
    current, the instance hands the response handler exactly one response: a
    [result] for that session whose [error] includes the message of the error
    [cmd.Wait] returned, with [done] false; it then sends [true] on
    [finishChan], and leaves the session in [currentSession]. *)
Theorem child_failure_reported
    (instance : ModelInstance.t) (child : ChildRun.t)
    (currentSession : Session.t) (err : error) :
  ModelInstance.currentSession instance = Some currentSession ->
  ChildRun.waitErr child = Some err ->
  ModelInstance.finishChan instance = [] ->
  exists r,
    handed (trace (startProcess_wait child) instance) = [r]
    /\ RunnerTaskResponse.Type_ r = WorkerTaskResponseTypeResult
    /\ RunnerTaskResponse.SessionID r = Session.ID currentSession
    /\ contains err (RunnerTaskResponse.Error r)
    /\ RunnerTaskResponse.Done r = false
    /\ ModelInstance.finishChan (exec (startProcess_wait child) instance) = [true]
    /\ ModelInstance.currentSession (exec (startProcess_wait child) instance)
       = Some currentSession.
Proof.
  intros Hcur Hwait Hchan. exists (error_response currentSession err).
  go. rewrite Hwait. cbn. rewrite Hcur. cbn.
  pose proof (contains_refl err) as Hcontains.
  destruct (ModelInstance.responseHandler instance _); cbn;
    rewrite Hchan; cbn; by rewrite ?Hcur.
Qed.

Lemma child_failure_reported_witness :
  ModelInstance.currentSession (Sample.running Sample.deps) = Some Sample.S1
  /\ ChildRun.waitErr Sample.crash = Some "exit status 1"
  /\ ModelInstance.finishChan (Sample.running Sample.deps) = []
  /\ exists r,
       handed (trace (startProcess_wait Sample.crash) (Sample.running Sample.deps))
       = [r]
       /\ ModelInstance.finishChan
            (exec (startProcess_wait Sample.crash) (Sample.running Sample.deps))
          = [true].
Proof.
  split; [reflexivity|]. split; [reflexivity|]. split; [reflexivity|].
  destruct (child_failure_reported (Sample.running Sample.deps) Sample.crash
              Sample.S1 "exit status 1")
    as (r & Hhanded & _ & _ & _ & _ & Hchan & _); [reflexivity..|].
  exists r. split; [exact Hhanded|exact Hchan].
Defined.

(** *** The three slots *)
















Section SlotsInvariant.
Context `{TypesConsts} `{ModelImpls} `{RunnerDeps}.

End SlotsInvariant.


(** * Further properties *)

(** ** The model registry *)

Section RegistryAgreement.
Context `{TypesConsts} `{ModelImpls}.

(** X1. With pairwise different model names, the switch of [GetModel] and
    the map of [GetModels] agree on every name: a name the switch knows is a
    key of the map, bound to the same model, and a name the switch rejects is
    not a key of the map. *)
Theorem GetModel_agrees_with_GetModels (modelName : ModelName) :
  known_names_distinct ->
  match GetModel modelName with
  | inr model => GetModels.1 !! modelName = Some model
  | inl err =>
      GetModels.1 !! modelName = None
      /\ err = "no model for model name " +:+ modelName
  end.
Proof.
  unfold known_names_distinct, GetModel, GetModels. intros Hnodup. cbn.
  apply NoDup_cons in Hnodup as [Hn1 Hnodup].
  apply NoDup_cons in Hnodup as [Hn2 Hnodup].
  apply NoDup_cons in Hnodup as [Hn3 _].
  assert (Model_Axolotl_Mistral7b <> Model_Axolotl_SDXL) by set_solver.
  assert (Model_Axolotl_Mistral7b <> Model_Ollama_Mistral7b) by set_solver.
  assert (Model_Axolotl_Mistral7b <> Model_Ollama_Gemma7b) by set_solver.
  assert (Model_Axolotl_SDXL <> Model_Ollama_Mistral7b) by set_solver.
  assert (Model_Axolotl_SDXL <> Model_Ollama_Gemma7b) by set_solver.
  assert (Model_Ollama_Mistral7b <> Model_Ollama_Gemma7b) by set_solver.
  repeat case_decide; subst;
    repeat (rewrite lookup_insert_ne by congruence);
    rewrite ?lookup_insert_eq, ?lookup_empty; done.
Qed.
End RegistryAgreement.

Lemma GetModel_agrees_with_GetModels_witness :
  @known_names_distinct Sample.consts
  /\ (@GetModels Sample.consts Sample.impls).1 !! "gemma:7b-instruct"
     = Some (Sample.a_model 0 8)
  /\ (@GetModels Sample.consts Sample.impls).1 !! "gpt-4" = None.
Proof.
  assert (@known_names_distinct Sample.consts) as Hdistinct.
  { unfold known_names_distinct. cbn.
    repeat (apply NoDup_cons_2;
            [intros Hin;
             repeat (apply elem_of_cons in Hin as [Heq|Hin]; [discriminate Heq|]);
             by apply elem_of_nil in Hin|]).
    apply NoDup_nil_2. }
  split; [exact Hdistinct|]. split.
  - exact (@GetModel_agrees_with_GetModels Sample.consts Sample.impls
             "gemma:7b-instruct" Hdistinct).
  - exact (proj1 (@GetModel_agrees_with_GetModels Sample.consts Sample.impls
                    "gpt-4" Hdistinct)).
Defined.

Lemma lowest_fold_same_models (ms1 ms2 : list Model.t) :
  (forall m, m ∈ ms1 <-> m ∈ ms2) ->
  foldl lowest_step 0%N ms1 = foldl lowest_step 0%N ms2.
Proof.
  intros Hsame.
  destruct (lowest_fold_spec ms1 0%N) as (_ & Hr1 & Hv1).
  destruct (lowest_fold_spec ms2 0%N) as (_ & Hr2 & Hv2).
  destruct Hr1 as [E1|(Hpos1 & m1 & mode1 & Hin1 & Hmode1 & E1)];
    destruct Hr2 as [E2|(Hpos2 & m2 & mode2 & Hin2 & Hmode2 & E2)].
  - congruence.
  - apply Hsame in Hin2. rewrite E2 in Hpos2.
    specialize (Hv1 m2 mode2 Hin2 Hmode2 Hpos2). lia.
  - apply Hsame in Hin1. rewrite E1 in Hpos1.
    specialize (Hv2 m1 mode1 Hin1 Hmode1 Hpos1). lia.
  - pose proof Hpos1 as Hp1. pose proof Hpos2 as Hp2.
    rewrite E1 in Hp1. rewrite E2 in Hp2.
    apply Hsame in Hin1. apply Hsame in Hin2.
    specialize (Hv2 m1 mode1 Hin1 Hmode1 Hp1).
    specialize (Hv1 m2 mode2 Hin2 Hmode2 Hp2). lia.
Qed.

Section RegistryOrder.
Context `{TypesConsts} `{ModelImpls}.

(** X2. The value [GetLowestMemoryRequirement] returns does not depend on
    the order in which Go ranges over the map of models: any two orders of
    the same map give the same result. *)
Theorem GetLowestMemoryRequirement_order_irrelevant
    (order1 order2 : list (ModelName * Model.t)) :
  range_order order1 -> range_order order2 ->
  GetLowestMemoryRequirement order1 = GetLowestMemoryRequirement order2.
Proof.
  intros H1 H2. unfold GetLowestMemoryRequirement. cbn. f_equal.
  apply lowest_fold_same_models. intros m.
  rewrite (range_order_models order1 m H1), (range_order_models order2 m H2).
  done.
Qed.
End RegistryOrder.

Lemma GetLowestMemoryRequirement_order_irrelevant_witness :
  let order := map_to_list ((@GetModels Sample.consts Sample.impls).1) in
  @range_order Sample.consts Sample.impls order
  /\ @range_order Sample.consts Sample.impls (reverse order)
  /\ @GetLowestMemoryRequirement Sample.consts Sample.impls order
     = @GetLowestMemoryRequirement Sample.consts Sample.impls (reverse order).
Proof.
  cbn zeta.
  assert (@range_order Sample.consts Sample.impls
            (map_to_list ((@GetModels Sample.consts Sample.impls).1))) as H1
    by (unfold range_order; reflexivity).
  assert (@range_order Sample.consts Sample.impls
            (reverse (map_to_list ((@GetModels Sample.consts Sample.impls).1))))
    as H2 by (unfold range_order; apply reverse_Permutation).
  split; [exact H1|]. split; [exact H2|].
  exact (@GetLowestMemoryRequirement_order_irrelevant Sample.consts Sample.impls
           _ _ H1 H2).
Defined.

(** ** The model instance *)

(** X3. [assignSessionTask] marks the instance busy before it asks the model
    for the task: whether [GetTask] succeeds or fails, the session is the
    current one afterwards and the activity time is refreshed.  When
    [GetTask] succeeds the task returned is the model's, with its session ID
    overwritten by the session's; when it fails its error is returned. *)
Theorem assignSessionTask_marks_busy_first
    (instance : ModelInstance.t) (now : Z) (ctx : Context) (session : Session.t) :
  let after := exec (assignSessionTask now ctx session) instance in
  ModelInstance.currentSession after = Some session
  /\ ModelInstance.lastActivityTimestamp after = now
  /\ trace (assignSessionTask now ctx session) instance = []
  /\ match Model.GetTask (ModelInstance.model instance) session with
     | inl err => value (assignSessionTask now ctx session) instance = inl err
     | inr task =>
         exists assigned,
           value (assignSessionTask now ctx session) instance = inr assigned
           /\ RunnerTask.SessionID assigned = Session.ID session
           /\ RunnerTask.Prompt assigned = RunnerTask.Prompt task
           /\ RunnerTask.LoraDir assigned = RunnerTask.LoraDir task
           /\ RunnerTask.DatasetDir assigned = RunnerTask.DatasetDir task
     end.
Proof.
  go. destruct (Model.GetTask _ _) as [err|task]; cbn; [done|].
  repeat split. by eexists.
Qed.

Lemma taskResponses_idle (rs : list (Z * RunnerTaskResponse.t))
    (instance : ModelInstance.t) :
  ModelInstance.currentSession instance = None ->
  exec (taskResponses rs) instance = instance
  /\ handed (trace (taskResponses rs) instance) = [].
Proof.
  intros Hidle. induction rs as [|[now r] rs IH]; [done|].
  unfold exec, trace in *. cbn. unfold bind.
  assert (taskResponseHandler now r instance
          = (tt, instance, [Log ErrorLevel "no current session" []])) as ->.
  { go. by rewrite Hidle. }
  destruct (taskResponses rs instance) as [[u i'] t'] eqn:Hrest.
  cbn in *. by destruct IH as [-> ->].
Qed.

Lemma handed_app (t1 t2 : list Effect) :
  handed (t1 ++ t2) = handed t1 ++ handed t2.
Proof.
  induction t1 as [|e t1 IH]; [done|]. destruct e; cbn; by rewrite ?IH.
Qed.

Lemma taskResponses_cons (now : Z) (r : RunnerTaskResponse.t)
    (rs : list (Z * RunnerTaskResponse.t)) (instance : ModelInstance.t) :
  exec (taskResponses ((now, r) :: rs)) instance
  = exec (taskResponses rs) (exec (taskResponseHandler now r) instance)
  /\ trace (taskResponses ((now, r) :: rs)) instance
     = trace (taskResponseHandler now r) instance
       ++ trace (taskResponses rs) (exec (taskResponseHandler now r) instance).
Proof.
  change (taskResponses ((now, r) :: rs))
    with (bind (taskResponseHandler now r) (fun _ => taskResponses rs)).
  unfold exec, trace, bind.
  destruct (taskResponseHandler now r instance) as [[u i1] t1]. cbn.
  by destruct (taskResponses rs i1) as [[u' i2] t2].
Qed.

Lemma taskResponses_app (rs1 rs2 : list (Z * RunnerTaskResponse.t))
    (instance : ModelInstance.t) :
  exec (taskResponses (rs1 ++ rs2)) instance
  = exec (taskResponses rs2) (exec (taskResponses rs1) instance)
  /\ trace (taskResponses (rs1 ++ rs2)) instance
     = trace (taskResponses rs1) instance
       ++ trace (taskResponses rs2) (exec (taskResponses rs1) instance).
Proof.
  revert instance. induction rs1 as [|[now r] rs1 IH]; intros instance; [done|].
  change (((now, r) :: rs1) ++ rs2) with ((now, r) :: (rs1 ++ rs2)).
  destruct (taskResponses_cons now r (rs1 ++ rs2) instance) as [-> ->].
  destruct (taskResponses_cons now r rs1 instance) as [-> ->].
  destruct (IH (exec (taskResponseHandler now r) instance)) as [-> ->].
  by rewrite app_assoc.
Qed.

Lemma taskResponseHandler_stream (instance : ModelInstance.t) (now : Z)
    (r : RunnerTaskResponse.t) (cur : Session.t) :
  ModelInstance.currentSession instance = Some cur ->
  RunnerTaskResponse.SessionID r = Session.ID cur ->
  RunnerTaskResponse.Type_ r <> WorkerTaskResponseTypeResult ->
  exec (taskResponseHandler now r) instance
  = ModelInstance.set_lastActivityTimestamp now instance
  /\ handed (trace (taskResponseHandler now r) instance)
     = [RunnerTaskResponse.set_Owner (Session.Owner cur) r].
Proof.
  intros Hcur Hid Htype. go. rewrite Hcur. cbn.
  case_decide; [congruence|]. cbn. case_decide; [done|]. cbn.
  by destruct (ModelInstance.responseHandler instance _).
Qed.

Lemma taskResponseHandler_result (instance : ModelInstance.t) (now : Z)
    (r : RunnerTaskResponse.t) (cur : Session.t) :
  ModelInstance.currentSession instance = Some cur ->
  RunnerTaskResponse.SessionID r = Session.ID cur ->
  RunnerTaskResponse.Type_ r = WorkerTaskResponseTypeResult ->
  ModelInstance.currentSession (exec (taskResponseHandler now r) instance) = None
  /\ handed (trace (taskResponseHandler now r) instance)
     = match FileHandler.uploadWorkerResponse (ModelInstance.fileHandler instance)
               (RunnerTaskResponse.set_Owner (Session.Owner cur) r) with
       | inr uploaded => [uploaded]
       | inl _ => []
       end.
Proof.
  intros Hcur Hid Htype. go. rewrite Hcur. cbn.
  case_decide; [congruence|]. cbn. rewrite Htype. case_decide; [|done]. cbn.
  destruct (FileHandler.uploadWorkerResponse _ _) as [err|uploaded]; cbn; [done|].
  by destruct (ModelInstance.responseHandler instance uploaded).
Qed.

Lemma taskResponses_streams
    (rs : list (Z * RunnerTaskResponse.t)) (instance : ModelInstance.t)
    (cur : Session.t) :
  ModelInstance.currentSession instance = Some cur ->
  Forall (fun nr => RunnerTaskResponse.SessionID nr.2 = Session.ID cur
                    /\ RunnerTaskResponse.Type_ nr.2 <> WorkerTaskResponseTypeResult)
         rs ->
  handed (trace (taskResponses rs) instance)
  = map (fun nr => RunnerTaskResponse.set_Owner (Session.Owner cur) nr.2) rs
  /\ ModelInstance.currentSession (exec (taskResponses rs) instance) = Some cur
  /\ ModelInstance.fileHandler (exec (taskResponses rs) instance)
     = ModelInstance.fileHandler instance.
Proof.
  intros Hcur Hall. revert instance Hcur.
  induction Hall as [|[now r] rs [Hid Htype] _ IH]; intros instance Hcur; [done|].
  cbn in Hid, Htype.
  destruct (taskResponses_cons now r rs instance) as [-> ->].
  destruct (taskResponseHandler_stream instance now r cur Hcur Hid Htype)
    as [Hexec Hhanded].
  rewrite handed_app, Hhanded, Hexec.
  by destruct (IH (ModelInstance.set_lastActivityTimestamp now instance) Hcur)
    as (-> & -> & ->).
Qed.

(** X4. While a session is current, the stream and progress responses that
    carry its ID are handed to the response handler one for one and in the
    order they arrive, each with the session's owner filled in; the session
    stays current, and the activity time is the time of the last of them. *)
Theorem stream_responses_forwarded_in_order
    (rs : list (Z * RunnerTaskResponse.t)) (instance : ModelInstance.t)
    (cur : Session.t) :
  ModelInstance.currentSession instance = Some cur ->
  Forall (fun nr => RunnerTaskResponse.SessionID nr.2 = Session.ID cur
                    /\ RunnerTaskResponse.Type_ nr.2 <> WorkerTaskResponseTypeResult)
         rs ->
  handed (trace (taskResponses rs) instance)
  = map (fun nr => RunnerTaskResponse.set_Owner (Session.Owner cur) nr.2) rs
  /\ ModelInstance.currentSession (exec (taskResponses rs) instance) = Some cur
  /\ ModelInstance.fileHandler (exec (taskResponses rs) instance)
     = ModelInstance.fileHandler instance
  /\ ModelInstance.lastActivityTimestamp (exec (taskResponses rs) instance)
     = default (ModelInstance.lastActivityTimestamp instance) (last (rs.*1)).
Proof.
  intros Hcur Hall.
  destruct (taskResponses_streams rs instance cur Hcur Hall) as (Hh & Hc & Hf).
  split; [exact Hh|]. split; [exact Hc|]. split; [exact Hf|].
  clear Hh Hc Hf. revert instance Hcur.
  induction Hall as [|[now r] rs [Hid Htype] _ IH]; intros instance Hcur; [done|].
  cbn in Hid, Htype.
  destruct (taskResponses_cons now r rs instance) as [-> _].
  destruct (taskResponseHandler_stream instance now r cur Hcur Hid Htype)
    as [-> _].
  rewrite (IH (ModelInstance.set_lastActivityTimestamp now instance) Hcur).
  cbn. rewrite last_cons. by destruct (last rs.*1).
Qed.

Lemma stream_responses_forwarded_in_order_witness :
  let rs := [(101%Z, Sample.stream_chunk); (102%Z, Sample.stream_chunk)] in
  ModelInstance.currentSession (Sample.running Sample.deps) = Some Sample.S1
  /\ handed (trace (taskResponses rs) (Sample.running Sample.deps))
     = [RunnerTaskResponse.set_Owner "alice" Sample.stream_chunk;
        RunnerTaskResponse.set_Owner "alice" Sample.stream_chunk]
  /\ ModelInstance.lastActivityTimestamp
       (exec (taskResponses rs) (Sample.running Sample.deps)) = 102%Z.
Proof.
  cbn zeta. split; [reflexivity|].
  destruct (stream_responses_forwarded_in_order
              [(101%Z, Sample.stream_chunk); (102%Z, Sample.stream_chunk)]
              (Sample.running Sample.deps) Sample.S1)
    as (Hhanded & _ & _ & Hlast); [reflexivity| |].
  - constructor; [split; [reflexivity|intros Heq; discriminate Heq]|].
    constructor; [split; [reflexivity|intros Heq; discriminate Heq]|].
    constructor.
  - split; [exact Hhanded|exact Hlast].
Defined.

(** X5. A whole session on an instance: stream and progress responses of the
    current session, then its [result], then anything else the parser still
    emits.  The response handler gets the tagged stream responses in order,
    then what the upload of the result returned (nothing when the upload
    failed), and nothing of what comes after the result, whatever session ID
    it carries; the instance ends with no current session. *)
Theorem responses_end_with_result
    (streams later : list (Z * RunnerTaskResponse.t))
    (now : Z) (result : RunnerTaskResponse.t)
    (instance : ModelInstance.t) (cur : Session.t) :
  ModelInstance.currentSession instance = Some cur ->
  Forall (fun nr => RunnerTaskResponse.SessionID nr.2 = Session.ID cur
                    /\ RunnerTaskResponse.Type_ nr.2 <> WorkerTaskResponseTypeResult)
         streams ->
  RunnerTaskResponse.SessionID result = Session.ID cur ->
  RunnerTaskResponse.Type_ result = WorkerTaskResponseTypeResult ->
  let all := streams ++ (now, result) :: later in
  handed (trace (taskResponses all) instance)
  = map (fun nr => RunnerTaskResponse.set_Owner (Session.Owner cur) nr.2) streams
    ++ match FileHandler.uploadWorkerResponse (ModelInstance.fileHandler instance)
               (RunnerTaskResponse.set_Owner (Session.Owner cur) result) with
       | inr uploaded => [uploaded]
       | inl _ => []
       end
  /\ ModelInstance.currentSession (exec (taskResponses all) instance) = None.
Proof.
  intros Hcur Hstreams Hid Htype. cbn zeta.
  destruct (taskResponses_app streams ((now, result) :: later) instance) as [-> ->].
  destruct (taskResponses_streams streams instance cur Hcur Hstreams)
    as (Hhanded & Hcur' & Hfh).
  set (mid := exec (taskResponses streams) instance) in *.
  destruct (taskResponses_cons now result later mid) as [-> ->].
  destruct (taskResponseHandler_result mid now result cur Hcur' Hid Htype)
    as [Hidle Hres].
  destruct (taskResponses_idle later _ Hidle) as [-> Hnone].
  rewrite !handed_app, Hhanded, Hres, Hnone, Hfh, app_nil_r. done.
Qed.

Lemma responses_end_with_result_witness :
  let all := [(101%Z, Sample.stream_chunk); (102%Z, Sample.final_result);
              (103%Z, Sample.stream_chunk)] in
  ModelInstance.currentSession (Sample.running Sample.deps) = Some Sample.S1
  /\ handed (trace (taskResponses all) (Sample.running Sample.deps))
     = [RunnerTaskResponse.set_Owner "alice" Sample.stream_chunk;
        RunnerTaskResponse.set_Owner "alice" Sample.final_result]
  /\ ModelInstance.currentSession
       (exec (taskResponses all) (Sample.running Sample.deps)) = None.
Proof.
  cbn zeta. split; [reflexivity|].
  apply (responses_end_with_result [(101%Z, Sample.stream_chunk)]
           [(103%Z, Sample.stream_chunk)] 102 Sample.final_result
           (Sample.running Sample.deps) Sample.S1); [reflexivity| |reflexivity..].
  constructor; [split; [reflexivity|intros Heq; discriminate Heq]|].
  constructor.
Defined.

Lemma step_same_config (i i' : ModelInstance.t) :
  step i i' ->
  same_config i i'
  /\ ModelInstance.currentCommand i' = ModelInstance.currentCommand i
  /\ (ModelInstance.finishChan i' = ModelInstance.finishChan i
      \/ ModelInstance.finishChan i = []
         /\ ModelInstance.finishChan i' = [true]).
Proof.
  unfold same_config. intros Hstep. destruct Hstep.
  - go. repeat split; auto.
  - go. destruct downloaded as [err|prepared]; cbn;
      [destruct (ModelInstance.responseHandler i _); cbn|];
      repeat split; auto.
  - go. destruct (Model.GetTask _ _); cbn; repeat split; auto.
  - go. destruct (ModelInstance.currentSession i) as [cur|]; cbn;
      [|repeat split; auto].
    case_decide; cbn; [repeat split; auto|].
    case_decide; cbn.
    + destruct (FileHandler.uploadWorkerResponse _ _) as [err|uploaded]; cbn;
        [repeat split; auto|].
      destruct (ModelInstance.responseHandler i uploaded); cbn;
        repeat split; auto.
    + destruct (ModelInstance.responseHandler i _); cbn; repeat split; auto.
  - go.
    destruct (ModelInstance.finishChan i) as [|b chan] eqn:Hchan.
    + destruct (ChildRun.waitErr child) as [err|]; cbn;
        [destruct (ModelInstance.currentSession i) as [cur|]; cbn;
         [destruct (ModelInstance.responseHandler i _); cbn|]|];
        rewrite ?Hchan; cbn; repeat split; auto.
    + destruct (ChildRun.waitErr child) as [err|]; cbn;
        [destruct (ModelInstance.currentSession i) as [cur|]; cbn;
         [destruct (ModelInstance.responseHandler i _); cbn|]|];
        rewrite ?Hchan; cbn; (case_decide; [cbn in *; lia|]); cbn;
        repeat split; auto.
Qed.

Lemma life_step_same_config (i i' : ModelInstance.t) :
  life_step i i' ->
  same_config i i'
  /\ (ModelInstance.finishChan i' = ModelInstance.finishChan i
      \/ ModelInstance.finishChan i = []
         /\ ModelInstance.finishChan i' = [true]).
Proof.
  intros Hstep. destruct Hstep as [i i' Hop|i session isInitialSession|i os session].
  - destruct (step_same_config i i' Hop) as (Hcfg & _ & Hchan). by split.
  - unfold same_config. go.
    destruct (FileHandler.downloadSession _ _ _) as [err|prepared]; cbn;
      [destruct (ModelInstance.responseHandler i _); cbn|];
      repeat split; auto.
  - unfold same_config. go_start.
    destruct (Launch.GetCommand _ _ _ _) as [err|[cmd|]]; cbn;
      [repeat split; auto| |repeat split; auto].
    destruct (Launch.StdoutPipe os); cbn; [repeat split; auto|].
    destruct (Launch.StderrPipe os); cbn; [repeat split; auto|].
    destruct (Launch.GetTextStreams os _); cbn; [repeat split; auto|].
    destruct (Launch.Start os); cbn; repeat split; auto.
Qed.

Section InstanceLife.
Context `{TypesConsts} `{ModelImpls} `{RunnerDeps}.

(** X6. Nothing an instance goes through after its construction (queueing,
    assignment, responses, the start and the end of its child) changes what
    [NewModelInstance] gave it: its id, model, filter, URLs, options,
    response handler, context, initial session and file handler are those of
    the fresh instance in every state it reaches.  In particular the filter
    keeps the model name, mode and type of the initial session. *)
Theorem instance_config_is_fixed
    (ctx : Context) (id : string) (initialSession : Session.t)
    (nextTaskURL initialSessionURL : string)
    (responseHandler : RunnerTaskResponse.t -> option error)
    (runnerOptions : RunnerOptions.t) (init i : ModelInstance.t) :
  NewModelInstance ctx id initialSession nextTaskURL initialSessionURL
    responseHandler runnerOptions = inr init ->
  rtc life_step init i ->
  same_config init i
  /\ ModelInstance.id i = id
  /\ ModelInstance.initialSession i = Some initialSession
  /\ SessionFilter.ModelName (ModelInstance.filter i)
     = Session.ModelName initialSession
  /\ SessionFilter.Mode (ModelInstance.filter i) = Session.Mode initialSession
  /\ SessionFilter.Type_ (ModelInstance.filter i) = Session.Type_ initialSession.
Proof.
  intros Hnew Hreach.
  assert (same_config init i) as Hcfg.
  { clear Hnew. induction Hreach as [i|i j k Hstep _ IH].
    - unfold same_config. repeat split.
    - destruct (life_step_same_config i j Hstep) as [Hij _].
      unfold same_config in *.
      destruct Hij as (?&?&?&?&?&?&?&?&?&?&?), IH as (?&?&?&?&?&?&?&?&?&?&?).
      repeat split; congruence. }
  split; [exact Hcfg|].
  destruct Hcfg as (Hid & _ & Hfilter & _ & _ & _ & _ & _ & _ & Hinitial & _).
  rewrite Hid, Hinitial, Hfilter.
  unfold NewModelInstance in Hnew.
  destruct (GetModel _); [done|]. injection Hnew as <-. by cbn.
Qed.
End InstanceLife.

Lemma instance_config_is_fixed_witness :
  let init := Sample.fresh Sample.deps in
  let i := exec (startProcess (Probe.launch None) Sample.S1)
             (exec (queueSession Sample.S1 true) init) in
  rtc life_step init i
  /\ ModelInstance.id i = "uuid-1"
  /\ SessionFilter.Mode (ModelInstance.filter i) = "inference".
Proof.
  cbn zeta.
  assert (rtc life_step (Sample.fresh Sample.deps)
            (exec (startProcess (Probe.launch None) Sample.S1)
               (exec (queueSession Sample.S1 true) (Sample.fresh Sample.deps))))
    as Hreach.
  { eapply rtc_l; [exact (life_step_queue _ Sample.S1 true)|].
    apply rtc_once. exact (life_step_start _ (Probe.launch None) Sample.S1). }
  split; [exact Hreach|].
  destruct (@instance_config_is_fixed Sample.consts Sample.impls Sample.deps
              Background "uuid-1" Sample.S1
              "http://localhost:8080/api/v1/worker/task"
              "http://localhost:8080/api/v1/worker/initial_session"
              (fun _ => None) Sample.options (Sample.fresh Sample.deps) _
              eq_refl Hreach) as (_ & Hid & _ & _ & Hmode & _).
  split; [exact Hid|exact Hmode].
Defined.

(** X7. When the child has ended, the goroutine waiting for it hands the
    response handler a response only if [cmd.Wait] returned an error and a
    session is current; a clean exit, or a failure while the instance is
    idle, reports nothing.  It then sends on [finishChan]: into an empty
    buffer the send goes through; when the buffer already holds a value the
    send blocks and the buffer is left as it is. *)
Theorem child_exit_reports_only_failures
    (instance : ModelInstance.t) (child : ChildRun.t) :
  handed (trace (startProcess_wait child) instance)
  = match ChildRun.waitErr child, ModelInstance.currentSession instance with
    | Some err, Some currentSession => [error_response currentSession err]
    | _, _ => []
    end
  /\ (ModelInstance.finishChan instance = [] ->
      ModelInstance.finishChan (exec (startProcess_wait child) instance) = [true]
      /\ SendBlocked ∉ trace (startProcess_wait child) instance)
  /\ (ModelInstance.finishChan instance <> [] ->
      ModelInstance.finishChan (exec (startProcess_wait child) instance)
      = ModelInstance.finishChan instance
      /\ SendBlocked ∈ trace (startProcess_wait child) instance).
Proof.
  go.
  destruct (ModelInstance.finishChan instance) as [|b chan] eqn:Hchan.
  - destruct (ChildRun.waitErr child) as [err|]; cbn;
      [destruct (ModelInstance.currentSession instance) as [cur|]; cbn;
       [destruct (ModelInstance.responseHandler instance _); cbn|]|];
      rewrite ?Hchan; cbn; (split; [done|]); (split; [|done]);
      intros _; (split; [done|]); intros Hin;
      repeat (apply elem_of_cons in Hin as [Heq|Hin]; [discriminate Heq|]);
      by apply elem_of_nil in Hin.
  - destruct (ChildRun.waitErr child) as [err|]; cbn;
      [destruct (ModelInstance.currentSession instance) as [cur|]; cbn;
       [destruct (ModelInstance.responseHandler instance _); cbn|]|];
      rewrite ?Hchan; cbn; (case_decide; [cbn in *; lia|]); cbn;
      (split; [done|]); (split; [done|]);
      intros _; (split; [done|]); apply list_elem_of_In; cbn; auto 10.
Qed.

Lemma child_exit_reports_only_failures_witness :
  handed (trace (startProcess_wait Probe.clean_exit) (Sample.running Sample.deps))
  = []
  /\ ModelInstance.finishChan
       (exec (startProcess_wait Probe.clean_exit) (Sample.running Sample.deps))
     = [true].
Proof.
  destruct (child_exit_reports_only_failures (Sample.running Sample.deps)
              Probe.clean_exit) as (Hhanded & Hsend & _).
  split; [exact Hhanded|]. exact (proj1 (Hsend eq_refl)).
Defined.

(** X8. [startProcess] keeps the command in [currentCommand] as soon as the
    model adapter has returned one, before the pipes, the text streams and
    [cmd.Start] are tried: it returns nil only when all of them succeed, and
    when one of them fails the instance still holds the command that was
    never started.  Without a command (an error of the adapter, or a nil
    command) [currentCommand] is left as it was.  Whatever happens,
    [startProcess] calls neither the response handler nor the file handler
    and changes no session slot. *)
Theorem startProcess_records_command
    (instance : ModelInstance.t) (os : Launch.t) (session : Session.t) :
  let after := exec (startProcess os session) instance in
  let returned := value (startProcess os session) instance in
  let command :=
    Launch.GetCommand os (ModelInstance.ctx instance)
      (ModelInstance.filter instance) (process_config instance) in
  ModelInstance.currentCommand after
  = match command with
    | inr (Some cmd) => Some cmd
    | _ => ModelInstance.currentCommand instance
    end
  /\ (returned = None <->
      (exists cmd, command = inr (Some cmd))
      /\ Launch.StdoutPipe os = None /\ Launch.StderrPipe os = None
      /\ Launch.GetTextStreams os (Session.Mode session) = None
      /\ Launch.Start os = None)
  /\ (command = inr None -> returned = Some "no command to run")
  /\ Forall (fun e => exists level format args, e = Log level format args)
       (trace (startProcess os session) instance)
  /\ ModelInstance.currentSession after = ModelInstance.currentSession instance
  /\ ModelInstance.nextSession after = ModelInstance.nextSession instance
  /\ ModelInstance.queuedSession after = ModelInstance.queuedSession instance
  /\ ModelInstance.lastActivityTimestamp after
     = ModelInstance.lastActivityTimestamp instance.
Proof.
  unfold process_config. go_start.
  destruct (Launch.GetCommand _ _ _ _) as [err|[cmd|]]; cbn.
  - repeat split; try done; try constructor.
    intros ((cmd & Hcmd) & _). discriminate Hcmd.
  - destruct (Launch.StdoutPipe os), (Launch.StderrPipe os),
      (Launch.GetTextStreams os _), (Launch.Start os); cbn;
      repeat split; try done; eauto 10;
      try (intros (_ & ? & ? & ? & ?); congruence);
      repeat (constructor; [by eauto|]); constructor.
  - repeat split; try done; try constructor.
    intros ((cmd & Hcmd) & _). discriminate Hcmd.
Qed.

Lemma startProcess_records_command_witness :
  let after := exec (startProcess (Probe.launch (Some "exec format error")) Sample.S1)
                 (Sample.fresh Sample.deps) in
  ModelInstance.currentCommand after = Some Probe.python
  /\ value (startProcess (Probe.launch (Some "exec format error")) Sample.S1)
       (Sample.fresh Sample.deps) <> None.
Proof.
  cbn zeta.
  destruct (startProcess_records_command (Sample.fresh Sample.deps)
              (Probe.launch (Some "exec format error")) Sample.S1)
    as (Hcmd & Hnil & _).
  split; [exact Hcmd|].
  intros Hreturned. apply Hnil in Hreturned as (_ & _ & _ & _ & Hstart).
  discriminate Hstart.
Defined.

(** ** The tools API *)

Section ToolsFacts.
Context `{SystemPkg}.

(** X9. [validateTool] accepts a tool exactly when it is an API tool with a
    configuration whose URL and schema are not empty, the schema (decoded
    from base64 when it decodes, as it is otherwise) parses into at least one
    action, and the planner accepts the tool with that schema and those
    actions filled in; the tool it leaves behind is then the one the planner
    left. *)
Theorem validateTool_accepts (s : Backend.t) (tool : Tool.t) :
  let validated := (validateTool s tool).1 in
  validated.2 = None <->
  Tool.ToolType tool = ToolTypeAPI
  /\ exists api actions,
       ToolConfig.API (Tool.Config tool) = Some api
       /\ ToolApiConfig.URL api <> ""
       /\ ToolApiConfig.Schema api <> ""
       /\ let api' := match Backend.DecodeString s (ToolApiConfig.Schema api) with
                      | Some decoded => ToolApiConfig.set_Schema decoded api
                      | None => api
                      end in
          Backend.GetActionsFromSchema s (ToolApiConfig.Schema api') = inr actions
          /\ actions <> []
          /\ Backend.ValidateAndDefault s
               (Tool.set_API (ToolApiConfig.set_Actions actions api') tool)
             = (validated.1, None).
Proof.
  handler_go.
  destruct (decide (Tool.ToolType tool = ToolTypeAPI)) as [Htype|Htype]; cbn;
    [|split; [done|by intros [? _]]].
  destruct (ToolConfig.API (Tool.Config tool)) as [api|]; cbn;
    [|split; [done|by intros (_ & ? & ? & ? & _)]].
  destruct (decide (ToolApiConfig.URL api = "")) as [Hurl|Hurl]; cbn.
  { split; [done|]. intros (_ & api' & actions & [= <-] & ? & _). done. }
  destruct (decide (ToolApiConfig.Schema api = "")) as [Hschema|Hschema]; cbn.
  { split; [done|]. intros (_ & api' & actions & [= <-] & _ & ? & _). done. }
  set (api' := match Backend.DecodeString s (ToolApiConfig.Schema api) with
               | Some decoded => ToolApiConfig.set_Schema decoded api
               | None => api
               end).
  destruct (Backend.GetActionsFromSchema s (ToolApiConfig.Schema api'))
    as [err|actions] eqn:Hactions; cbn.
  { split; [done|].
    intros (_ & api0 & actions & [= <-] & _ & _ & Hparse & _).
    fold api' in Hparse. congruence. }
  destruct (decide (length actions = 0)) as [Hlen|Hlen]; cbn.
  { split; [done|].
    intros (_ & api0 & actions0 & [= <-] & _ & _ & Hparse & Hne & _).
    fold api' in Hparse. assert (actions0 = actions) as -> by congruence.
    by destruct actions. }
  change (Tool.set_API (ToolApiConfig.set_Actions actions api')
            (Tool.set_API api' tool))
    with (Tool.set_API (ToolApiConfig.set_Actions actions api') tool).
  destruct (Backend.ValidateAndDefault s _) as [after [err|]] eqn:Hplan; cbn.
  - split; [done|].
    intros (_ & api0 & actions0 & [= <-] & _ & _ & Hparse & _ & Hplanner).
    fold api' in Hparse, Hplanner.
    assert (actions0 = actions) as -> by congruence.
    rewrite Hplan in Hplanner. congruence.
  - split; [|done]. intros _. split; [done|]. exists api, actions.
    fold api'. repeat split; try done. by destruct actions.
Qed.
End ToolsFacts.

Section ToolsHandlers.
Context `{SystemPkg}.

Lemma validateTool_shape (s : Backend.t) (tool : Tool.t) :
  Forall (fun c => writes_store c = false) (validateTool s tool).2
  /\ forall after,
       (validateTool s tool).1 = (after, None) ->
       exists checked,
         Backend.ValidateAndDefault s checked = (after, None)
         /\ CallValidateAndDefault checked ∈ (validateTool s tool).2
         /\ Tool.ID checked = Tool.ID tool
         /\ Tool.Owner checked = Tool.Owner tool
         /\ Tool.OwnerType checked = Tool.OwnerType tool
         /\ Tool.Name checked = Tool.Name tool.
Proof.
  handler_go.
  destruct (decide (Tool.ToolType tool = ToolTypeAPI)); cbn; [|by split].
  destruct (ToolConfig.API (Tool.Config tool)) as [api|]; cbn; [|by split].
  destruct (decide (ToolApiConfig.URL api = "")); cbn; [by split|].
  destruct (decide (ToolApiConfig.Schema api = "")); cbn; [by split|].
  destruct (Backend.GetActionsFromSchema s _) as [err|actions]; cbn;
    [split; [by repeat constructor|done]|].
  destruct (decide (length actions = 0)); cbn;
    [split; [by repeat constructor|done]|].
  destruct (Backend.ValidateAndDefault s _) as [after [err|]] eqn:Hplan; cbn;
    (split; [by repeat constructor|]); [done|].
  intros after' [= <-]. eexists. split; [exact Hplan|].
  split; [|done]. apply list_elem_of_In. cbn. auto.
Qed.

(** X10. Whenever [createTool] writes a tool to the store, it has asked the
    store for the requester's own tools and none of them has the name of the
    new tool; the tool is the one the planner left after validation, and what
    was validated carried the requester as owner and owner type, whatever the
    request body said. *)
Theorem createTool_writes_no_duplicate
    (s : Backend.t) (r : Request.t) (t : Tool.t) :
  CallCreateTool t ∈ (createTool s r).2 ->
  let query := ListToolsQuery.mk (OwnerContext.Owner (Request.userContext r))
                 (OwnerContext.OwnerType (Request.userContext r)) in
  exists existingTools checked,
    CallListTools query ∈ (createTool s r).2
    /\ Backend.ListTools s query = inr existingTools
    /\ Forall (fun e => Tool.Name e <> Tool.Name t) existingTools
    /\ Backend.ValidateAndDefault s checked = (t, None)
    /\ Tool.Owner checked = OwnerContext.Owner (Request.userContext r)
    /\ Tool.OwnerType checked = OwnerContext.OwnerType (Request.userContext r)
    /\ (createTool s r).1
       = match Backend.CreateTool s t with
         | inl err => inl (NewHTTPError500 err [])
         | inr created => inr created
         end.
Proof.
  unfold createTool, hbind, hret, called. cbn.
  destruct (Request.Body r) as [err|tool]; cbn;
    [intros Hin; by apply elem_of_nil in Hin|].
  destruct (Backend.ListTools s _) as [err|existingTools] eqn:Hlist; cbn.
  { intros Hin. apply list_elem_of_In in Hin. cbn in Hin.
    by destruct Hin as [?|[]]. }
  destruct (validateTool_shape s
              (Tool.set_OwnerType (OwnerContext.OwnerType (Request.userContext r))
                 (Tool.set_Owner (OwnerContext.Owner (Request.userContext r)) tool)))
    as [Hnowrite Hok].
  destruct (validateTool s _) as [[after verr] vtrace] eqn:Hv. cbn in *.
  assert (CallCreateTool t ∉ vtrace) as Hnot.
  { intros Hin. rewrite Forall_forall in Hnowrite.
    by specialize (Hnowrite _ Hin). }
  destruct verr as [verr|]; cbn.
  { intros Hin. apply elem_of_cons in Hin as [?|Hin]; [done|].
    rewrite app_nil_r in Hin. done. }
  destruct (Hok after eq_refl) as (checked & Hplan & _ & _ & Howner & Htype & _).
  destruct (find _ existingTools) as [dup|] eqn:Hfind; cbn.
  { intros Hin. apply elem_of_cons in Hin as [?|Hin]; [done|].
    rewrite app_nil_r in Hin. done. }
  destruct (Backend.CreateTool s after) as [err|created] eqn:Hcreate; cbn;
    intros Hin; apply elem_of_cons in Hin as [?|Hin]; try done;
    apply elem_of_app in Hin as [Hin|Hin]; try done;
    apply list_elem_of_In in Hin; cbn in Hin;
    destruct Hin as [[= <-]|[]];
    (exists existingTools, checked; rewrite Hcreate;
     split; [by left|]; split; [done|]; split;
     [|by repeat split]);
    apply Forall_forall; intros e He Hname;
    apply list_elem_of_In in He;
    apply (find_none _ _ Hfind) in He;
    by rewrite bool_decide_eq_false in He.
Qed.

(** X11. To a requester who does not own it, a stored tool looks like a
    missing one: [deleteTool] and [updateTool] answer with the very 404 they
    give when the store has no such tool, and neither writes to the store. *)
Theorem foreign_tool_looks_missing
    (s missing : Backend.t) (r : Request.t) (existing : Tool.t) :
  Backend.GetTool s (Request.ID r) = inr existing ->
  Tool.Owner existing <> OwnerContext.Owner (Request.userContext r) ->
  Backend.GetTool missing (Request.ID r) = inl ErrNotFound ->
  Backend.ErrNotFound_Error missing = Backend.ErrNotFound_Error s ->
  (deleteTool s r).1 = inl (NewHTTPError404 (Backend.ErrNotFound_Error s) [])
  /\ (deleteTool missing r).1 = (deleteTool s r).1
  /\ Forall (fun c => writes_store c = false) (deleteTool s r).2
  /\ Forall (fun c => writes_store c = false) (updateTool s r).2
  /\ (forall tool after,
        Request.Body r = inr tool ->
        (validateTool s (Tool.set_ID (Request.ID r) tool)).1 = (after, None) ->
        (updateTool s r).1
        = inl (NewHTTPError404 (Backend.ErrNotFound_Error s) []))
  /\ (forall tool after,
        Request.Body r = inr tool ->
        (validateTool missing (Tool.set_ID (Request.ID r) tool)).1 = (after, None) ->
        (updateTool missing r).1
        = inl (NewHTTPError404 (Backend.ErrNotFound_Error s) [])).
Proof.
  intros Hget Hforeign Hmissing Hmsg.
  unfold deleteTool, updateTool, hbind, hret, called. cbn.
  rewrite Hget, Hmissing, Hmsg. cbn.
  destruct (decide (Tool.Owner existing
                    <> OwnerContext.Owner (Request.userContext r))); [|done].
  cbn. split; [done|]. split; [done|]. split; [by repeat constructor|].
  split; [|split].
  - destruct (Request.Body r) as [err|tool]; cbn; [constructor|].
    destruct (validateTool_shape s (Tool.set_ID (Request.ID r) tool))
      as [Hnowrite _].
    destruct (validateTool s _) as [[after [verr|]] vtrace]; cbn in *.
    + by rewrite app_nil_r.
    + rewrite ?Hget. cbn.
      destruct (decide (Tool.Owner existing
                        <> OwnerContext.Owner (Request.userContext r))); [|done].
      cbn. apply Forall_app. split; [done|by repeat constructor].
  - intros tool after -> Hv. cbn.
    destruct (validateTool s _) as [[a e] vtrace]. cbn in Hv.
    injection Hv as -> ->. cbn. rewrite ?Hget. cbn.
    by destruct (decide (Tool.Owner existing
                         <> OwnerContext.Owner (Request.userContext r))).
  - intros tool after -> Hv. cbn.
    destruct (validateTool missing _) as [[a e] vtrace]. cbn in Hv.
    injection Hv as -> ->. cbn. rewrite ?Hmissing. cbn.
    by rewrite ?Hmsg.
Qed.

(** X12. A tool that [updateTool] writes to the store is the requester's own:
    the store holds a tool under the path's ID, that tool's owner is the
    requester, and the written tool carries the stored owner and owner type,
    not those of the request body. *)
Theorem updateTool_keeps_owner (s : Backend.t) (r : Request.t) (t : Tool.t) :
  CallUpdateTool t ∈ (updateTool s r).2 ->
  exists existing,
    Backend.GetTool s (Request.ID r) = inr existing
    /\ Tool.Owner existing = OwnerContext.Owner (Request.userContext r)
    /\ Tool.Owner t = Tool.Owner existing
    /\ Tool.OwnerType t = Tool.OwnerType existing.
Proof.
  unfold updateTool, hbind, hret, called. cbn.
  destruct (Request.Body r) as [err|tool]; cbn;
    [intros Hin; by apply elem_of_nil in Hin|].
  destruct (validateTool_shape s (Tool.set_ID (Request.ID r) tool))
    as [Hnowrite _].
  destruct (validateTool s _) as [[after verr] vtrace]. cbn in *.
  assert (CallUpdateTool t ∉ vtrace) as Hnot.
  { intros Hin. rewrite Forall_forall in Hnowrite.
    by specialize (Hnowrite _ Hin). }
  destruct verr as [verr|]; cbn; [by rewrite app_nil_r|].
  destruct (Backend.GetTool s (Request.ID r)) as [[|msg]|existing]; cbn.
  - intros Hin. apply elem_of_app in Hin as [Hin|Hin]; [done|].
    apply list_elem_of_In in Hin. cbn in Hin. by destruct Hin as [?|[]].
  - intros Hin. apply elem_of_app in Hin as [Hin|Hin]; [done|].
    apply list_elem_of_In in Hin. cbn in Hin. by destruct Hin as [?|[]].
  - destruct (decide (Tool.Owner existing
                      <> OwnerContext.Owner (Request.userContext r)))
      as [Hforeign|Hown]; cbn.
    + intros Hin. apply elem_of_app in Hin as [Hin|Hin]; [done|].
      apply list_elem_of_In in Hin. cbn in Hin. by destruct Hin as [?|[]].
    + apply dec_stable in Hown.
      destruct (Backend.UpdateTool s _); cbn; intros Hin;
        apply elem_of_app in Hin as [Hin|Hin]; try done;
        apply list_elem_of_In in Hin; cbn in Hin;
        destruct Hin as [?|[[= <-]|[]]]; try done;
        by exists existing.
Qed.

(** X13. [deleteTool] succeeds exactly when the store holds a tool under the
    path's ID, that tool belongs to the requester and the store's delete
    returns no error; it then returns the stored tool, and its calls are the
    lookup and the delete of that ID, in this order. *)
Theorem deleteTool_succeeds (s : Backend.t) (r : Request.t) (deleted : Tool.t) :
  (deleteTool s r).1 = inr deleted <->
  Backend.GetTool s (Request.ID r) = inr deleted
  /\ Tool.Owner deleted = OwnerContext.Owner (Request.userContext r)
  /\ Backend.DeleteTool s (Request.ID r) = None
  /\ (deleteTool s r).2 = [CallGetTool (Request.ID r); CallDeleteTool (Request.ID r)].
Proof.
  unfold deleteTool, hbind, hret, called. cbn.
  destruct (Backend.GetTool s (Request.ID r)) as [[|msg]|existing]; cbn;
    [split; [done|by intros [? _]]..|].
  destruct (decide (Tool.Owner existing
                    <> OwnerContext.Owner (Request.userContext r)))
    as [Hforeign|Hown]; cbn.
  - split; [done|]. intros ([= ->] & Howner & _). done.
  - apply dec_stable in Hown.
    destruct (Backend.DeleteTool s (Request.ID r)); cbn.
    + split; [done|]. by intros (_ & _ & ? & _).
    + split; [by intros [= <-]|by intros ([= <-] & _)].
Qed.
End ToolsHandlers.

Lemma validateTool_accepts_witness :
  ((@validateTool ToolsProbe.sys (ToolsProbe.backend []) ToolsProbe.weather).1).2
  = None
  /\ Tool.ToolType ToolsProbe.weather = ToolTypeAPI.
Proof.
  split; [reflexivity|].
  exact (proj1 (proj1 (@validateTool_accepts ToolsProbe.sys (ToolsProbe.backend [])
                         ToolsProbe.weather) eq_refl)).
Defined.

Lemma createTool_writes_no_duplicate_witness :
  let r := Request.mk (inr ToolsProbe.weather) ToolsProbe.alice "" in
  let t := ToolsProbe.validated ToolsProbe.alice "" in
  CallCreateTool t ∈ (@createTool ToolsProbe.sys (ToolsProbe.backend []) r).2
  /\ exists checked,
       Backend.ValidateAndDefault (ToolsProbe.backend []) checked = (t, None)
       /\ Tool.Owner checked = "alice".
Proof.
  cbn zeta.
  assert (CallCreateTool (ToolsProbe.validated ToolsProbe.alice "")
          ∈ (@createTool ToolsProbe.sys (ToolsProbe.backend [])
               (Request.mk (inr ToolsProbe.weather) ToolsProbe.alice "")).2)
    as Hin by (apply list_elem_of_In; vm_compute; auto 10).
  split; [exact Hin|].
  destruct (@createTool_writes_no_duplicate ToolsProbe.sys (ToolsProbe.backend [])
              (Request.mk (inr ToolsProbe.weather) ToolsProbe.alice "")
              (ToolsProbe.validated ToolsProbe.alice "") Hin)
    as (existingTools & checked & _ & _ & _ & Hplan & Howner & _).
  exists checked. split; [exact Hplan|exact Howner].
Defined.

Lemma foreign_tool_looks_missing_witness :
  let r := Request.mk (inr ToolsProbe.weather) ToolsProbe.bob "tool-1" in
  let gone := Request.mk (inr ToolsProbe.weather) ToolsProbe.bob "tool-9" in
  Backend.GetTool (ToolsProbe.backend []) "tool-1" = inr ToolsProbe.stored
  /\ Tool.Owner ToolsProbe.stored <> "bob"
  /\ (@deleteTool ToolsProbe.sys (ToolsProbe.backend []) r).1
     = inl (404%Z, "not found", [])
  /\ (@deleteTool ToolsProbe.sys (ToolsProbe.backend []) gone).1
     = inl (404%Z, "not found", []).
Proof.
  cbn zeta. split; [reflexivity|].
  assert (Tool.Owner ToolsProbe.stored <> "bob") as Hforeign
    by (intros Heq; discriminate Heq).
  split; [exact Hforeign|]. split; [|reflexivity].
  exact (proj1 (@foreign_tool_looks_missing ToolsProbe.sys
                  (ToolsProbe.backend [])
                  (Backend.mk (fun _ => inr []) (fun t => inr t)
                     (fun _ => inl ErrNotFound) (fun t => inr t) (fun _ => None)
                     (fun _ => inr []) (fun t => (t, None)) (fun _ => None)
                     "not found")
                  (Request.mk (inr ToolsProbe.weather) ToolsProbe.bob "tool-1")
                  ToolsProbe.stored eq_refl Hforeign eq_refl eq_refl)).
Defined.

Lemma updateTool_keeps_owner_witness :
  let r := Request.mk (inr ToolsProbe.weather) ToolsProbe.alice "tool-1" in
  let t := ToolsProbe.validated ToolsProbe.alice "tool-1" in
  CallUpdateTool t ∈ (@updateTool ToolsProbe.sys (ToolsProbe.backend []) r).2
  /\ Tool.Owner t = "alice"
  /\ Tool.Owner ToolsProbe.weather = "mallory".
Proof.
  cbn zeta.
  assert (CallUpdateTool (ToolsProbe.validated ToolsProbe.alice "tool-1")
          ∈ (@updateTool ToolsProbe.sys (ToolsProbe.backend [])
               (Request.mk (inr ToolsProbe.weather) ToolsProbe.alice "tool-1")).2)
    as Hin by (apply list_elem_of_In; vm_compute; auto 10).
  split; [exact Hin|].
  destruct (@updateTool_keeps_owner ToolsProbe.sys (ToolsProbe.backend [])
              (Request.mk (inr ToolsProbe.weather) ToolsProbe.alice "tool-1")
              (ToolsProbe.validated ToolsProbe.alice "tool-1") Hin)
    as (existing & Hget & Hmine & Howner & _).
  split; [|reflexivity]. rewrite Howner, Hmine. reflexivity.
Defined.

Lemma deleteTool_succeeds_witness :
  let r := Request.mk (inl "EOF") ToolsProbe.alice "tool-1" in
  (@deleteTool ToolsProbe.sys (ToolsProbe.backend []) r).1 = inr ToolsProbe.stored
  /\ (@deleteTool ToolsProbe.sys (ToolsProbe.backend []) r).2
     = [CallGetTool "tool-1"; CallDeleteTool "tool-1"].
Proof.
  cbn zeta. split; [reflexivity|].
  exact (proj2 (proj2 (proj2
           (proj1 (@deleteTool_succeeds ToolsProbe.sys (ToolsProbe.backend [])
                     (Request.mk (inl "EOF") ToolsProbe.alice "tool-1")
                     ToolsProbe.stored) eq_refl)))).
Defined.

(** ** The keycloak middleware and the frontend's token header *)

Lemma substring_whole (s : string) : String.substring 0 (String.length s) s = s.
Proof. induction s as [|c s IH]; [done|]. cbn. by rewrite IH. Qed.

Lemma prefix_split (old s : string) :
  String.prefix old s = true -> exists post, s = old +:+ post.
Proof.
  revert s. induction old as [|a old IH]; intros s Hprefix; [by exists s|].
  destruct s as [|b s]; [done|]. cbn in Hprefix.
  destruct (Ascii.ascii_dec a b) as [->|]; [|done].
  destruct (IH s Hprefix) as [post ->]. by exists post.
Qed.

Lemma strings_Replace_1_unfold (s old new : string) :
  strings_Replace_1 s old new
  = if String.prefix old s
    then new +:+ String.substring (String.length old)
                   (String.length s - String.length old) s
    else match s with
         | EmptyString => EmptyString
         | String c s' => String c (strings_Replace_1 s' old new)
         end.
Proof. by destruct s. Qed.

Lemma prefix_app (old post : string) : String.prefix old (old +:+ post) = true.
Proof.
  induction old as [|a old IH]; [by destruct post|].
  change (String.prefix (String a old) (String a (old +:+ post)) = true).
  cbn. by destruct (Ascii.ascii_dec a a).
Qed.

Lemma substring_after (old post : string) :
  String.substring (String.length old) (String.length post) (old +:+ post) = post.
Proof.
  induction old as [|a old IH]; [apply substring_whole|].
  change (String.substring (S (String.length old)) (String.length post)
            (String a (old +:+ post)) = post).
  cbn. exact IH.
Qed.

Lemma strings_Replace_1_prefix (old new post : string) :
  strings_Replace_1 (old +:+ post) old new = new +:+ post.
Proof.
  rewrite strings_Replace_1_unfold, prefix_app, String_length_app.
  replace (String.length old + String.length post - String.length old)
    with (String.length post) by lia.
  by rewrite substring_after.
Qed.

Lemma extractBearerToken_marked (token : string) :
  extractBearerToken ("Bearer " +:+ token) = token.
Proof. unfold extractBearerToken. by rewrite strings_Replace_1_prefix. Qed.

(** X14. The token the frontend puts into its header is the token the
    middleware takes out of it: for every token, extracting the bearer token
    from the [Authorization] header that [getTokenHeaders] builds gives the
    token back.  After [setToken] with an empty token there is no such header
    and the middleware reads an empty value. *)
Theorem bearer_token_round_trip (token : string) :
  extractBearerToken (Header_Get (getTokenHeaders token) "Authorization") = token
  /\ (token <> "" ->
      extractBearerToken (Header_Get (setToken token) "Authorization") = token)
  /\ Header_Get (setToken "") "Authorization" = "".
Proof.
  assert (Header_Get (getTokenHeaders token) "Authorization" = "Bearer " +:+ token)
    as Hget.
  { unfold Header_Get, getTokenHeaders. by rewrite lookup_singleton_eq. }
  split; [rewrite Hget; apply extractBearerToken_marked|].
  split; [|reflexivity].
  intros Hne. unfold setToken. destruct (decide (token = "")); [done|].
  rewrite Hget. apply extractBearerToken_marked.
Qed.

Lemma bearer_token_round_trip_witness :
  "eyJhbGciOi" <> ""
  /\ extractBearerToken (Header_Get (setToken "eyJhbGciOi") "Authorization")
     = "eyJhbGciOi".
Proof.
  assert ("eyJhbGciOi" <> "") as Hne by (intros Heq; discriminate Heq).
  split; [exact Hne|].
  exact (proj1 (proj2 (bearer_token_round_trip "eyJhbGciOi")) Hne).
Defined.

(** X15. A header value in which the text "Bearer " does not occur is taken
    as the token as it stands: the scheme is removed when it is there, and is
    not required. *)
Theorem extractBearerToken_without_marker (authorization : string) :
  (forall pre post, authorization <> pre +:+ "Bearer " +:+ post) ->
  extractBearerToken authorization = authorization.
Proof.
  unfold extractBearerToken.
  induction authorization as [|c s IH]; intros Hfree; [reflexivity|].
  rewrite strings_Replace_1_unfold.
  destruct (String.prefix "Bearer " (String c s)) eqn:Hprefix.
  - apply prefix_split in Hprefix as [post Heq].
    by destruct (Hfree "" post).
  - f_equal. apply IH. intros pre post Heq.
    apply (Hfree (String c pre) post). cbn. by rewrite Heq.
Qed.

Lemma extractBearerToken_without_marker_witness :
  (forall pre post, "Basic dXNlcg" <> pre +:+ "Bearer " +:+ post)
  /\ extractBearerToken "Basic dXNlcg" = "Basic dXNlcg".
Proof.
  assert (forall pre post, "Basic dXNlcg" <> pre +:+ "Bearer " +:+ post) as Hfree.
  { intros pre post Heq.
    do 12 (destruct pre as [|? pre]; [discriminate Heq|injection Heq as _ Heq]).
    destruct pre; discriminate Heq. }
  split; [exact Hfree|].
  exact (extractBearerToken_without_marker "Basic dXNlcg" Hfree).
Defined.

(** X16. [userFromRequest] returns a token exactly when the header is not
    empty, the bearer token extracted from it is not empty, keycloak reports
    the token as active and decodes it; the token returned is the decoded
    one.  Keycloak is contacted only when header and bearer token are not
    empty, and is then asked about the extracted token with the server's
    client secret. *)
Theorem userFromRequest_accepts
    (kc : Keycloak.t) (options : ServerOptions.t) (authorization : string)
    (j : JWT.t) :
  let bearer := extractBearerToken authorization in
  ((userFromRequest kc options authorization).2 = Returns (inr j) <->
   authorization <> "" /\ bearer <> ""
   /\ Keycloak.RetrospectToken kc bearer CLIENT_ID
        (ServerOptions.KeyCloakToken options) REALM = inr (Some true)
   /\ Keycloak.DecodeAccessToken kc bearer REALM = inr j)
  /\ (authorization = "" \/ bearer = "" ->
      (userFromRequest kc options authorization).1 = [])
  /\ Forall (fun e => is_keycloak_call e = true ->
                      e = CallRetrospectToken bearer CLIENT_ID
                            (ServerOptions.KeyCloakToken options) REALM
                      \/ e = CallDecodeAccessToken bearer REALM)
       (userFromRequest kc options authorization).1.
Proof.
  unfold userFromRequest. cbn zeta.
  destruct (decide (authorization = "")) as [Hauth|Hauth]; cbn.
  { split; [split; [done|by intros [? _]]|]. split; [done|constructor]. }
  destruct (decide (extractBearerToken authorization = "")) as [Hbearer|Hbearer]; cbn.
  { split; [split; [done|by intros (_ & ? & _)]|]. split; [done|constructor]. }
  split; [|split; [by intros [?|?]|]].
  - destruct (Keycloak.RetrospectToken kc _ _ _ _) as [err|active]; cbn;
      [split; [done|by intros (_ & _ & ? & _)]|].
    destruct (Keycloak.DecodeAccessToken kc _ _) as [err|decoded]; cbn;
      [split; [done|by intros (_ & _ & _ & ?)]|].
    destruct active as [[|]|]; cbn.
    + split; [by intros [= <-]|by intros (_ & _ & _ & [= <-])].
    + split; [done|]. by intros (_ & _ & ? & _).
    + split; [done|]. by intros (_ & _ & ? & _).
  - destruct (Keycloak.RetrospectToken kc _ _ _ _) as [err|active]; cbn;
      [repeat (constructor; [cbn; by auto|]); constructor|].
    destruct (Keycloak.DecodeAccessToken kc _ _) as [err|decoded]; cbn;
      [repeat (constructor; [cbn; by auto|]); constructor|].
    destruct active as [[|]|]; cbn;
      repeat (constructor; [cbn; by auto|]); constructor.
Qed.

Lemma userFromRequest_accepts_witness :
  (userFromRequest AuthProbe.keycloak AuthProbe.options "Bearer eyJhbGciOi").2
  = Returns (inr AuthProbe.token)
  /\ (userFromRequest AuthProbe.keycloak AuthProbe.options "Bearer ").1 = [].
Proof.
  destruct (userFromRequest_accepts AuthProbe.keycloak AuthProbe.options
              "Bearer eyJhbGciOi" AuthProbe.token) as ([_ Haccept] & _).
  split.
  - apply Haccept. repeat split; vm_compute; congruence.
  - destruct (userFromRequest_accepts AuthProbe.keycloak AuthProbe.options
                "Bearer " AuthProbe.token) as (_ & Hquiet & _).
    apply Hquiet. right. reflexivity.
Defined.

(** X17. Every call of [userFromRequest] that gets as far as keycloak first
    prints the server's client secret and the bearer token of the request:
    both are dumped before the introspection request is sent. *)
Theorem userFromRequest_dumps_secrets
    (kc : Keycloak.t) (options : ServerOptions.t) (authorization : string) :
  authorization <> "" ->
  extractBearerToken authorization <> "" ->
  exists before after,
    (userFromRequest kc options authorization).1
    = before
      ++ CallRetrospectToken (extractBearerToken authorization) CLIENT_ID
           (ServerOptions.KeyCloakToken options) REALM :: after
    /\ Dump (ServerOptions.KeyCloakToken options) ∈ before
    /\ Dump (extractBearerToken authorization) ∈ before
    /\ Forall (fun e => is_keycloak_call e = false) before.
Proof.
  intros Hauth Hbearer. unfold userFromRequest. cbn zeta.
  destruct (decide (authorization = "")); [done|].
  destruct (decide (extractBearerToken authorization = "")); [done|].
  set (bearer := extractBearerToken authorization).
  exists [Printf "auth.options.KeyCloakToken --------------------------------------\n";
          Dump (ServerOptions.KeyCloakToken options);
          Printf "CLIENT_ID --------------------------------------\n";
          Dump CLIENT_ID;
          Printf "token --------------------------------------\n";
          Dump bearer;
          Printf "REALM --------------------------------------\n";
          Dump REALM].
  destruct (Keycloak.RetrospectToken kc _ _ _ _) as [err|active]; cbn.
  - exists []. split; [done|]. split; [apply list_elem_of_In; cbn; auto|].
    split; [apply list_elem_of_In; cbn; auto 10|by repeat constructor].
  - exists [CallDecodeAccessToken bearer REALM].
    split; [by destruct (Keycloak.DecodeAccessToken kc _ _); [|destruct active as [[|]|]]|].
    split; [apply list_elem_of_In; cbn; auto|].
    split; [apply list_elem_of_In; cbn; auto 10|by repeat constructor].
Qed.

Lemma userFromRequest_dumps_secrets_witness :
  "Bearer eyJhbGciOi" <> ""
  /\ extractBearerToken "Bearer eyJhbGciOi" <> ""
  /\ exists before after,
       (userFromRequest AuthProbe.keycloak AuthProbe.options "Bearer eyJhbGciOi").1
       = before ++ CallRetrospectToken "eyJhbGciOi" "api" "client-secret" "lilypad"
                   :: after
       /\ Dump "client-secret" ∈ before.
Proof.
  assert ("Bearer eyJhbGciOi" <> "") as Hauth by (intros Heq; discriminate Heq).
  assert (extractBearerToken "Bearer eyJhbGciOi" <> "") as Hbearer
    by (vm_compute; intros Heq; discriminate Heq).
  split; [exact Hauth|]. split; [exact Hbearer|].
  destruct (userFromRequest_dumps_secrets AuthProbe.keycloak AuthProbe.options
              "Bearer eyJhbGciOi" Hauth Hbearer)
    as (before & after & Hevents & Hsecret & _).
  exists before, after. split; [exact Hevents|exact Hsecret].
Defined.

(** X18. The middleware lets a request through to the next handler only for
    a token keycloak reports as active and decodes, and passes on the user ID
    found as a string under "sub" in the token's claims; the next handler is
    called at most once, and never after a 401 has been written.  When
    [userFromRequest] returns an error, the answer is a 401 with that error
    and the next handler is not called. *)
Theorem verifyToken_guards_next
    (kc : Keycloak.t) (options : ServerOptions.t) (authorization : string) :
  let events := (verifyToken kc options authorization).1 in
  let bearer := extractBearerToken authorization in
  (forall userid,
      NextServeHTTP userid ∈ events ->
      exists j claims,
        Keycloak.RetrospectToken kc bearer CLIENT_ID
          (ServerOptions.KeyCloakToken options) REALM = inr (Some true)
        /\ Keycloak.DecodeAccessToken kc bearer REALM = inr j
        /\ JWT.Claims j = Some claims
        /\ claims !! "sub" = Some (ClaimString userid)
        /\ filter (fun e => is_next e = true) events = [NextServeHTTP userid]
        /\ forall message code, HttpError message code ∉ events)
  /\ (forall err,
        (userFromRequest kc options authorization).2 = Returns (inl err) ->
        events = (userFromRequest kc options authorization).1 ++ [HttpError err 401]
        /\ filter (fun e => is_next e = true) events = []).
Proof.
  cbn zeta. unfold verifyToken, userFromRequest. cbn zeta.
  destruct (decide (authorization = "")) as [Hauth|Hauth]; cbn.
  { split; [|by intros err [= <-]].
    intros userid Hin. apply list_elem_of_In in Hin. cbn in Hin.
    by destruct Hin as [?|[]]. }
  destruct (decide (extractBearerToken authorization = "")) as [Hbearer|Hbearer]; cbn.
  { split; [|by intros err [= <-]].
    intros userid Hin. apply list_elem_of_In in Hin. cbn in Hin.
    by destruct Hin as [?|[]]. }
  destruct (Keycloak.RetrospectToken kc _ _ _ _) as [err|active]; cbn.
  { split; [|by intros err' [= <-]].
    intros userid Hin. apply list_elem_of_In in Hin. cbn in Hin.
    repeat (destruct Hin as [Heq|Hin]; [discriminate Heq|]). done. }
  destruct (Keycloak.DecodeAccessToken kc _ _) as [err|j]; cbn.
  { split; [|by intros err' [= <-]].
    intros userid Hin. apply list_elem_of_In in Hin. cbn in Hin.
    repeat (destruct Hin as [Heq|Hin]; [discriminate Heq|]). done. }
  destruct active as [[|]|]; cbn.
  - unfold getUserIdFromJWT.
    destruct (JWT.Claims j) as [claims|] eqn:Hclaims; cbn.
    + destruct (claims !! "sub") as [[uid|]|] eqn:Hsub; cbn;
        (split; [|done]); intros userid Hin;
        apply list_elem_of_In in Hin; cbn in Hin;
        repeat (destruct Hin as [Heq|Hin]; [try discriminate Heq|]); try done.
      injection Heq as <-. exists j, claims.
      repeat split; try done.
      intros message code Hbad. apply list_elem_of_In in Hbad. cbn in Hbad.
      repeat (destruct Hbad as [Heq|Hbad]; [discriminate Heq|]). done.
    + split; [|done]. intros userid Hin.
      apply list_elem_of_In in Hin. cbn in Hin.
      repeat (destruct Hin as [Heq|Hin]; [discriminate Heq|]). done.
  - split; [|by intros err' [= <-]].
    intros userid Hin. apply list_elem_of_In in Hin. cbn in Hin.
    repeat (destruct Hin as [Heq|Hin]; [discriminate Heq|]). done.
  - split; [|done]. intros userid Hin.
    apply list_elem_of_In in Hin. cbn in Hin.
    repeat (destruct Hin as [Heq|Hin]; [discriminate Heq|]). done.
Qed.

Lemma verifyToken_guards_next_witness :
  NextServeHTTP "user-42"
  ∈ (verifyToken AuthProbe.keycloak AuthProbe.options "Bearer eyJhbGciOi").1
  /\ exists j claims,
       Keycloak.DecodeAccessToken AuthProbe.keycloak
         (extractBearerToken "Bearer eyJhbGciOi") REALM = inr j
       /\ JWT.Claims j = Some claims
       /\ claims !! "sub" = Some (ClaimString "user-42").
Proof.
  assert (NextServeHTTP "user-42"
          ∈ (verifyToken AuthProbe.keycloak AuthProbe.options "Bearer eyJhbGciOi").1)
    as Hin by (apply list_elem_of_In; vm_compute; auto 20).
  split; [exact Hin|].
  destruct (verifyToken_guards_next AuthProbe.keycloak AuthProbe.options
              "Bearer eyJhbGciOi") as [Hnext _].
  destruct (Hnext "user-42" Hin) as (j & claims & _ & Hdecode & Hclaims & Hsub & _).
  exists j, claims. split; [exact Hdecode|]. split; [exact Hclaims|exact Hsub].
Defined.

(** X19. [NewServer] checks the URL, the host, the port, the keycloak URL and
    the keycloak token of its options, in this order, and fails at the first
    one that is empty (0 for the port), with the error that names it:
    "server url is required", "server host is required", "server port is
    required", "keycloak url is required", "keycloack token is required".
    It returns a server exactly when none of the five is missing, and the
    server then holds the options and the controller it was given. *)
Theorem NewServer_requires_all_options
    {Controller : Type} (options : ServerOptions.t) (controller : Controller) :
  (ServerOptions.URL options = "" ->
   NewServer options controller = inl "server url is required")
  /\ (ServerOptions.URL options <> "" -> ServerOptions.Host options = "" ->
      NewServer options controller = inl "server host is required")
  /\ (ServerOptions.URL options <> "" -> ServerOptions.Host options <> "" ->
      ServerOptions.Port options = 0%Z ->
      NewServer options controller = inl "server port is required")
  /\ (ServerOptions.URL options <> "" -> ServerOptions.Host options <> "" ->
      ServerOptions.Port options <> 0%Z ->
      ServerOptions.KeyCloakURL options = "" ->
      NewServer options controller = inl "keycloak url is required")
  /\ (ServerOptions.URL options <> "" -> ServerOptions.Host options <> "" ->
      ServerOptions.Port options <> 0%Z ->
      ServerOptions.KeyCloakURL options <> "" ->
      ServerOptions.KeyCloakToken options = "" ->
      NewServer options controller = inl "keycloack token is required")
  /\ (ServerOptions.URL options <> "" -> ServerOptions.Host options <> "" ->
      ServerOptions.Port options <> 0%Z ->
      ServerOptions.KeyCloakURL options <> "" ->
      ServerOptions.KeyCloakToken options <> "" ->
      NewServer options controller
      = inr (LilysaasAPIServer.mk options controller))
  /\ ((exists server, NewServer options controller = inr server) <->
      ServerOptions.URL options <> "" /\ ServerOptions.Host options <> ""
      /\ ServerOptions.Port options <> 0%Z
      /\ ServerOptions.KeyCloakURL options <> ""
      /\ ServerOptions.KeyCloakToken options <> "")
  /\ (forall server,
        NewServer options controller = inr server ->
        LilysaasAPIServer.Options server = options
        /\ LilysaasAPIServer.Controller_ server = controller).
Proof.
  unfold NewServer.
  destruct (decide (ServerOptions.URL options = "")) as [Hurl|Hurl].
  { do 6 (split; [done|]).
    split; [split; [by intros [? ?]|by intros (? & _)]|done]. }
  destruct (decide (ServerOptions.Host options = "")) as [Hhost|Hhost].
  { do 6 (split; [done|]).
    split; [split; [by intros [? ?]|by intros (_ & ? & _)]|done]. }
  destruct (decide (ServerOptions.Port options = 0%Z)) as [Hport|Hport].
  { do 6 (split; [done|]).
    split; [split; [by intros [? ?]|by intros (_ & _ & ? & _)]|done]. }
  destruct (decide (ServerOptions.KeyCloakURL options = "")) as [Hkc|Hkc].
  { do 6 (split; [done|]).
    split; [split; [by intros [? ?]|by intros (_ & _ & _ & ? & _)]|done]. }
  destruct (decide (ServerOptions.KeyCloakToken options = "")) as [Htok|Htok].
  { do 6 (split; [done|]).
    split; [split; [by intros [? ?]|by intros (_ & _ & _ & _ & ?)]|done]. }
  do 6 (split; [done|]).
  split; [split; [done|by eexists]|]. by intros server [= <-].
Qed.

Lemma NewServer_requires_all_options_witness :
  (exists server,
      NewServer AuthProbe.options tt = inr server
      /\ LilysaasAPIServer.Options server = AuthProbe.options)
  /\ NewServer
       (ServerOptions.mk (ServerOptions.URL AuthProbe.options)
          (ServerOptions.Host AuthProbe.options) 0 "" "") tt
     = inl "server port is required".
Proof.
  split.
  - destruct (NewServer_requires_all_options AuthProbe.options tt)
      as (_ & _ & _ & _ & _ & _ & [_ Hall] & Hholds).
    destruct Hall as [server Hserver].
    + repeat split; vm_compute; congruence.
    + exists server. split; [exact Hserver|].
      exact (proj1 (Hholds server Hserver)).
  - destruct (NewServer_requires_all_options
                (ServerOptions.mk (ServerOptions.URL AuthProbe.options)
                   (ServerOptions.Host AuthProbe.options) 0 "" "") tt)
      as (_ & _ & Hport & _).
    apply Hport; vm_compute; congruence.
Defined.

(** ** Data preparation *)

Lemma foldl_snoc_map {A B} (f : A -> B) (l : list A) (acc : list B) :
  foldl (fun result x => result ++ [f x]) acc l = acc ++ map f l.
Proof.
  revert acc. induction l as [|x l IH]; intros acc; cbn; [by rewrite app_nil_r|].
  by rewrite IH, <- app_assoc.
Qed.

Lemma expand_loops {Others} (prompts : list string)
    (chunks acc : list (DataPrepTextSplitterChunk.t Others)) :
  foldl (fun result prompt =>
           foldl (fun result chunk =>
                    result ++ [DataPrepTextSplitterChunk.set_PromptName prompt chunk])
                 result chunks)
        acc prompts
  = acc ++ concat (map (fun prompt =>
                          map (DataPrepTextSplitterChunk.set_PromptName prompt) chunks)
                       prompts).
Proof.
  revert acc. induction prompts as [|prompt prompts IH]; intros acc;
    cbn [foldl map concat]; [by rewrite app_nil_r|].
  rewrite IH, (foldl_snoc_map (DataPrepTextSplitterChunk.set_PromptName prompt)).
  by rewrite app_assoc.
Qed.

Lemma ExpandChunks_blocks {Others} (d : DynamicDataPrep.t)
    (chunks : list (DataPrepTextSplitterChunk.t Others)) :
  (ExpandChunks d chunks).1
  = concat (map (fun prompt =>
                   map (DataPrepTextSplitterChunk.set_PromptName prompt) chunks)
                (DynamicDataPrep.Prompts d)).
Proof. unfold ExpandChunks. cbv zeta. cbn [fst]. by rewrite expand_loops. Qed.

Lemma length_blocks {A B} (g : A -> list B) (n : nat) (l : list A) :
  (forall y, length (g y) = n) ->
  length (concat (map g l)) = length l * n.
Proof.
  intros Hlen. induction l as [|y l IH]; [done|].
  cbn. by rewrite length_app, Hlen, IH.
Qed.

Lemma lookup_blocks {A B} (g : A -> list B) (n : nat) (l : list A)
    (p c : nat) (x : A) :
  (forall y, length (g y) = n) ->
  l !! p = Some x -> c < n ->
  concat (map g l) !! (p * n + c) = g x !! c.
Proof.
  intros Hlen. revert p. induction l as [|y l IH]; intros p Hp Hc; [done|].
  destruct p as [|p]; cbn in *.
  - injection Hp as ->. rewrite lookup_app_l; [done|]. by rewrite Hlen.
  - rewrite lookup_app_r; rewrite Hlen; [|lia].
    replace (n + p * n + c - n) with (p * n + c) by lia. by apply IH.
Qed.

(** X20. [ExpandChunks] returns, without error, one copy of every chunk for
    every prompt, prompt by prompt and within a prompt in the order of the
    chunks: there are (number of prompts) x (number of chunks) of them, and
    the copy at position [p * (number of chunks) + c] is chunk [c] with its
    prompt name set to prompt [p] and everything else as it was. *)
Theorem ExpandChunks_prompt_major {Others} (d : DynamicDataPrep.t)
    (chunks : list (DataPrepTextSplitterChunk.t Others)) :
  (ExpandChunks d chunks).2 = None
  /\ length (ExpandChunks d chunks).1
     = length (DynamicDataPrep.Prompts d) * length chunks
  /\ forall p c prompt chunk,
       DynamicDataPrep.Prompts d !! p = Some prompt ->
       chunks !! c = Some chunk ->
       exists copy,
         (ExpandChunks d chunks).1 !! (p * length chunks + c) = Some copy
         /\ DataPrepTextSplitterChunk.PromptName copy = prompt
         /\ DataPrepTextSplitterChunk.others copy
            = DataPrepTextSplitterChunk.others chunk.
Proof.
  split; [done|]. rewrite ExpandChunks_blocks. split.
  - apply length_blocks. intros prompt. apply length_map.
  - intros p c prompt chunk Hp Hc.
    exists (DataPrepTextSplitterChunk.set_PromptName prompt chunk).
    split; [|done].
    rewrite (lookup_blocks _ (length chunks) _ p c prompt);
      [|intros; apply length_map|done|by eapply lookup_lt_Some].
    change (map (DataPrepTextSplitterChunk.set_PromptName prompt) chunks !! c)
      with ((DataPrepTextSplitterChunk.set_PromptName prompt <$> chunks) !! c).
    by rewrite list_lookup_fmap, Hc.
Qed.

Lemma ExpandChunks_prompt_major_witness :
  let d := DynamicDataPrep.mk "together-mixtral" ["summaries"; "simple-quiz"] in
  let chunks := [DataPrepTextSplitterChunk.mk "" "first page";
                 DataPrepTextSplitterChunk.mk "" "second page";
                 DataPrepTextSplitterChunk.mk "" "third page"] in
  DynamicDataPrep.Prompts d !! 1 = Some "simple-quiz"
  /\ chunks !! 2 = Some (DataPrepTextSplitterChunk.mk "" "third page")
  /\ exists copy,
       (ExpandChunks d chunks).1 !! 5 = Some copy
       /\ DataPrepTextSplitterChunk.PromptName copy = "simple-quiz"
       /\ DataPrepTextSplitterChunk.others copy = "third page".
Proof.
  cbn zeta. split; [reflexivity|]. split; [reflexivity|].
  exact (proj2 (proj2 (ExpandChunks_prompt_major
           (DynamicDataPrep.mk "together-mixtral" ["summaries"; "simple-quiz"])
           [DataPrepTextSplitterChunk.mk "" "first page";
            DataPrepTextSplitterChunk.mk "" "second page";
            DataPrepTextSplitterChunk.mk "" "third page"]))
         1 2 "simple-quiz" (DataPrepTextSplitterChunk.mk "" "third page")
         eq_refl eq_refl).
Defined.

(** X21. [NewDynamicDataPrep] falls back to its defaults (the target
    "together-mixtral" and seven prompts) only when the target is empty and
    no prompt is given; otherwise it keeps both arguments as they are.  So a
    target given without prompts makes a generator with no prompts, which
    expands any list of chunks to nothing, while the defaults expand every
    chunk seven times. *)
Theorem NewDynamicDataPrep_defaults {Others} (target : string)
    (prompts : list string)
    (chunks : list (DataPrepTextSplitterChunk.t Others)) :
  (target <> "" \/ prompts <> [] ->
   NewDynamicDataPrep target prompts = DynamicDataPrep.mk target prompts)
  /\ (target <> "" ->
      (ExpandChunks (NewDynamicDataPrep target []) chunks).1 = [])
  /\ DynamicDataPrep.Target (NewDynamicDataPrep "" []) = "together-mixtral"
  /\ length (ExpandChunks (NewDynamicDataPrep "" []) chunks).1 = 7 * length chunks.
Proof.
  assert (forall t p, t <> "" \/ p <> [] ->
            NewDynamicDataPrep t p = DynamicDataPrep.mk t p) as Hkeep.
  { intros t p Hgiven. unfold NewDynamicDataPrep.
    destruct (decide _) as [[-> Hlen]|_]; [|done].
    destruct p; [by destruct Hgiven|done]. }
  split; [apply Hkeep|]. split; [|split; [done|]].
  - intros Htarget. by rewrite Hkeep; [|left].
  - rewrite ExpandChunks_blocks, (length_blocks _ (length chunks));
      [done|intros prompt; apply length_map].
Qed.

Lemma NewDynamicDataPrep_defaults_witness :
  "gpt-4" <> ""
  /\ (ExpandChunks (NewDynamicDataPrep "gpt-4" [])
        [DataPrepTextSplitterChunk.mk "" "first page"]).1 = [].
Proof.
  assert ("gpt-4" <> "") as Htarget by (intros Heq; discriminate Heq).
  split; [exact Htarget|].
  exact (proj1 (proj2 (NewDynamicDataPrep_defaults "gpt-4" []
                         [DataPrepTextSplitterChunk.mk "" "first page"]))
           Htarget).
Defined.

(** X22. [ConvertChunk] of the dynamic generator asks for the prompt, then
    for the target, then sends one query with the chunk as the contents of a
    text named "user-provided"; a failure at any step is returned and ends
    the call, so the query is sent only when both prompt and target were
    found.  On success it returns one conversation per question and answer,
    in the order of the query's result: the question as the value of a part
    from "human", then the answer as the value of a part from "gpt". *)
Theorem ConvertChunk_pairs {Prompt Target : Type}
    (qapairs : QAPairs.t Prompt Target) (d : DynamicDataPrep.t)
    (chunk : string) (index : Z) (documentID documentGroupID promptName : string) :
  let run := DynamicDataPrep_ConvertChunk qapairs d chunk index documentID
               documentGroupID promptName in
  let text := QText.mk "user-provided" chunk in
  (forall res,
      run.1 = inr res ->
      exists prompt target resRaw,
        QAPairs.FindPrompt qapairs promptName = inr prompt
        /\ QAPairs.FindTarget qapairs (DynamicDataPrep.Target d) = inr target
        /\ QAPairs.Query qapairs target prompt text documentID documentGroupID 0
           = inr resRaw
        /\ map conversation_pair res
           = map (fun q => Some (DataPrepTextQuestionRaw.Question q,
                                 DataPrepTextQuestionRaw.Answer q)) resRaw
        /\ run.2 = [CallFindPrompt promptName;
                    CallFindTarget (DynamicDataPrep.Target d);
                    CallQuery text documentID documentGroupID 0])
  /\ (forall text' id group n,
        CallQuery text' id group n ∈ run.2 ->
        (exists prompt, QAPairs.FindPrompt qapairs promptName = inr prompt)
        /\ (exists target,
              QAPairs.FindTarget qapairs (DynamicDataPrep.Target d) = inr target)
        /\ text' = text /\ id = documentID /\ group = documentGroupID /\ n = 0%Z).
Proof.
  cbn zeta. unfold DynamicDataPrep_ConvertChunk.
  destruct (QAPairs.FindPrompt qapairs promptName) as [err|prompt]; cbn.
  { split; [done|]. intros text' id group n Hin.
    apply list_elem_of_In in Hin. cbn in Hin. by destruct Hin as [?|[]]. }
  destruct (QAPairs.FindTarget qapairs _) as [err|target]; cbn.
  { split; [done|]. intros text' id group n Hin.
    apply list_elem_of_In in Hin. cbn in Hin. by destruct Hin as [?|[?|[]]]. }
  assert (forall text' id group n,
            CallQuery text' id group n
            ∈ [CallFindPrompt promptName;
               CallFindTarget (DynamicDataPrep.Target d);
               CallQuery (QText.mk "user-provided" chunk) documentID
                 documentGroupID 0] ->
            (exists p, @inr error Prompt prompt = inr p)
            /\ (exists t, @inr error Target target = inr t)
            /\ text' = QText.mk "user-provided" chunk /\ id = documentID
            /\ group = documentGroupID /\ n = 0%Z) as Hquery.
  { intros text' id group n Hin. apply list_elem_of_In in Hin. cbn in Hin.
    destruct Hin as [?|[?|[[= <- <- <- <-]|[]]]]; try done.
    repeat split; by eauto. }
  destruct (QAPairs.Query qapairs _ _ _ _ _ _) as [err|resRaw] eqn:Hq; cbn;
    (split; [|exact Hquery]); [done|].
  intros res [= <-]. exists prompt, target, resRaw.
  repeat split; try done.
  rewrite (foldl_snoc_map
             (fun q => DataPrepTextQuestion.mk
                [DataPrepTextQuestionPart.mk "human" (DataPrepTextQuestionRaw.Question q);
                 DataPrepTextQuestionPart.mk "gpt" (DataPrepTextQuestionRaw.Answer q)])).
  by rewrite app_nil_l, map_map.
Qed.

Lemma ConvertChunk_pairs_witness :
  let run := DynamicDataPrep_ConvertChunk PrepProbe.qapairs
               (NewDynamicDataPrep "" []) "a page" 0 "doc" "group" "simple-quiz" in
  exists res,
    run.1 = inr res
    /\ map conversation_pair res
       = [Some ("What is it about?", "a page"); Some ("Who wrote it?", "nobody says")].
Proof.
  cbn zeta.
  destruct (DynamicDataPrep_ConvertChunk PrepProbe.qapairs
              (NewDynamicDataPrep "" []) "a page" 0 "doc" "group" "simple-quiz").1
    as [err|res] eqn:Hrun; [discriminate Hrun|].
  exists res. split; [reflexivity|].
  destruct (ConvertChunk_pairs PrepProbe.qapairs (NewDynamicDataPrep "" [])
              "a page" 0 "doc" "group" "simple-quiz") as [Hok _].
  destruct (Hok res Hrun) as (prompt & target & resRaw & _ & _ & Hquery & Hpairs & _).
  rewrite Hpairs. injection Hquery as <-. reflexivity.
Defined.

(** X23. [ConvertChunk] of the OpenAI generator returns conversations exactly
    when the request could be serialised, built, authorised and sent, the
    body of the answer could be read, its status is below 400, it decodes
    into at least one choice and the parser accepts the content of the first
    choice; what it returns is then what the parser returned for that
    content.  An answer with a status of 400 or more is returned as an error
    made from the body, and an answer below 400 that decodes into no choice
    at all makes the call panic. *)
Theorem ConvertChunk_openai_accepts
    (wire : Wire.t) (gpt : DataOpenAIGPT.t) (chunk : string)
    (conversation : list DataPrepTextConversation.t) :
  let options := DataOpenAIGPT.Options gpt in
  let postData :=
    ChatCompletionRequest.mk (DataOpenAIGPT.model gpt)
      [ ChatCompletionMessage.mk "system"
          (DataOpenAIGPT.getSystemPromptFn gpt chunk options);
        ChatCompletionMessage.mk "user"
          (DataOpenAIGPT.getUserPromptFn gpt chunk options) ]
      (DataPrepTextOptions.Temperature options) in
  let url :=
    Wire.URL wire
      (ClientOptions.mk "https://api.openai.com" (DataPrepTextOptions.APIKey options))
      "/v1/chat/completions" in
  let sent dataBytes resp body :=
    Wire.Marshal wire postData = inr dataBytes
    /\ Wire.NewRequest wire "POST" url dataBytes = None
    /\ Wire.AddAuthHeadersRetryable wire (DataPrepTextOptions.APIKey options) = None
    /\ Wire.Do wire "POST" url dataBytes = inr resp
    /\ HTTPResponse.Body resp = inr body in
  (DataOpenAIGPT_ConvertChunk wire gpt chunk = Returns (inr conversation) <->
   exists dataBytes resp body content others,
     sent dataBytes resp body
     /\ (HTTPResponse.StatusCode resp < 400)%Z
     /\ Wire.Unmarshal wire body = inr (content :: others)
     /\ DataOpenAIGPT.parseResponseFn gpt content options = inr conversation)
  /\ (forall dataBytes resp body,
        sent dataBytes resp body ->
        (400 <= HTTPResponse.StatusCode resp)%Z ->
        DataOpenAIGPT_ConvertChunk wire gpt chunk
        = Returns (inl (Wire.Errorf wire body)))
  /\ (forall dataBytes resp body,
        sent dataBytes resp body ->
        (HTTPResponse.StatusCode resp < 400)%Z ->
        Wire.Unmarshal wire body = inr [] ->
        exists reason, DataOpenAIGPT_ConvertChunk wire gpt chunk = Panics reason).
Proof.
  cbn zeta. unfold DataOpenAIGPT_ConvertChunk, ChatMessageRoleSystem,
    ChatMessageRoleUser. cbn zeta. cbn [ClientOptions.Token].
  set (postData := ChatCompletionRequest.mk _ _ _).
  set (url := Wire.URL wire _ _).
  set (key := DataPrepTextOptions.APIKey (DataOpenAIGPT.Options gpt)).
  destruct (Wire.Marshal wire postData) as [err|dataBytes].
  { split; [split; [done|by intros (?&?&?&?&?&(?&_)&_)]|].
    split; by intros ? ? ? (? & _). }
  destruct (Wire.NewRequest wire "POST" url dataBytes) as [err|] eqn:Hreq.
  { split; [split; [done|]|split].
    - intros (?&?&?&?&?&([= <-]&?&_)&_). congruence.
    - intros ? ? ? ([= <-] & ? & _). congruence.
    - intros ? ? ? ([= <-] & ? & _). congruence. }
  destruct (Wire.AddAuthHeadersRetryable wire key) as [err|] eqn:Hauth.
  { split; [split; [done|]|split].
    - by intros (?&?&?&?&?&(_&_&?&_)&_).
    - by intros ? ? ? (_ & _ & ? & _).
    - by intros ? ? ? (_ & _ & ? & _). }
  destruct (Wire.Do wire "POST" url dataBytes) as [err|resp] eqn:Hdo.
  { split; [split; [done|]|split].
    - intros (?&?&?&?&?&([= <-]&_&_&?&_)&_). congruence.
    - intros ? ? ? ([= <-] & _ & _ & ? & _). congruence.
    - intros ? ? ? ([= <-] & _ & _ & ? & _). congruence. }
  destruct (HTTPResponse.Body resp) as [err|body] eqn:Hbody.
  { split; [split; [done|]|split].
    - intros (?&?&?&?&?&([= <-]&_&_&Hd&Hb)&_).
      rewrite Hdo in Hd. injection Hd as <-. congruence.
    - intros ? ? ? ([= <-] & _ & _ & Hd & Hb).
      rewrite Hdo in Hd. injection Hd as <-. congruence.
    - intros ? ? ? ([= <-] & _ & _ & Hd & Hb).
      rewrite Hdo in Hd. injection Hd as <-. congruence. }
  assert (forall d r b,
            inr dataBytes = @inr error string d
            /\ Wire.NewRequest wire "POST" url d = None
            /\ @None error = None
            /\ Wire.Do wire "POST" url d = inr r
            /\ HTTPResponse.Body r = inr b ->
            r = resp /\ b = body) as Hsent.
  { intros d r b ([= <-] & _ & _ & Hd & Hb).
    rewrite Hdo in Hd. injection Hd as <-. rewrite Hbody in Hb.
    by injection Hb as <-. }
  destruct (decide (400 <= HTTPResponse.StatusCode resp)%Z) as [Hcode|Hcode].
  { split; [split; [done|]|split].
    - intros (d&r&b&?&?&Hs&Hlt&_). apply Hsent in Hs as [-> ->]. lia.
    - intros d r b Hs _. by apply Hsent in Hs as [-> ->].
    - intros d r b Hs Hlt. apply Hsent in Hs as [-> ->]. lia. }
  destruct (Wire.Unmarshal wire body) as [err|[|content others]] eqn:Hjson.
  - split; [split; [done|]|split].
    + intros (d&r&b&?&?&Hs&_&Hu&_). apply Hsent in Hs as [-> ->]. congruence.
    + intros d r b Hs Hge. apply Hsent in Hs as [-> ->]. lia.
    + intros d r b Hs _ Hu. apply Hsent in Hs as [-> ->]. congruence.
  - split; [split; [done|]|split].
    + intros (d&r&b&?&?&Hs&_&Hu&_). apply Hsent in Hs as [-> ->]. congruence.
    + intros d r b Hs Hge. apply Hsent in Hs as [-> ->]. lia.
    + intros d r b Hs _ _. by eexists.
  - split; [split|split].
    + destruct (DataOpenAIGPT.parseResponseFn gpt content _) as [err|parsed] eqn:Hp;
        [done|].
      intros [= <-]. exists dataBytes, resp, body, content, others.
      repeat split; try done. lia.
    + intros (d&r&b&c&o&Hs&_&Hu&Hp). apply Hsent in Hs as [-> ->].
      rewrite Hjson in Hu. injection Hu as <- <-. by rewrite Hp.
    + intros d r b Hs Hge. apply Hsent in Hs as [-> ->]. lia.
    + intros d r b Hs _ Hu. apply Hsent in Hs as [-> ->]. congruence.
Qed.

Lemma ConvertChunk_openai_accepts_witness :
  DataOpenAIGPT_ConvertChunk (PrepProbe.wire ["Q: why? A: because."]) PrepProbe.gpt
    "a page"
  = Returns (inr [DataPrepTextConversation.mk
                    [DataPrepTextQuestionPart.mk "gpt" "Q: why? A: because."]])
  /\ exists reason,
       DataOpenAIGPT_ConvertChunk (PrepProbe.wire []) PrepProbe.gpt "a page"
       = Panics reason.
Proof.
  split.
  - apply (ConvertChunk_openai_accepts (PrepProbe.wire ["Q: why? A: because."])
             PrepProbe.gpt "a page").
    exists "{}", (HTTPResponse.mk 200 (inr "{}")), "{}", "Q: why? A: because.", [].
    repeat split; reflexivity.
  - destruct (ConvertChunk_openai_accepts (PrepProbe.wire []) PrepProbe.gpt "a page" [])
      as (_ & _ & Hpanic).
    apply (Hpanic "{}" (HTTPResponse.mk 200 (inr "{}")) "{}");
      repeat split; reflexivity.
Defined.
